(** * Corepy: the profiler front end and the tensor dispatch checks

    A shallow embedding of [corepy/profiler/core.py] and of the binary
    operations of [corepy/tensor.py].

    - Python values read from JSON are terms of [value]; a Python [dict]
      is an association list in insertion order.
    - A Python call that may raise returns a [result]; code that also
      touches the profiler or the file system runs in the monad [M].
    - Times are rationals ([Q]): a Python float is modelled by the exact
      rational it denotes, and its rounding is not modelled.
    - The Python standard library ([json], [csv], [format]) and the
      compiled extension [_corepy_rust] are interfaces ([PyLib],
      [CorepyRust]); the source's fallback for a missing extension and a
      model of the extension's profiler are instances of the latter. *)

From Stdlib Require Import QArith Qminmax Qround DecimalString Sorted Lqa.
From stdpp Require Import gmap strings list fin_maps.

Set Warnings "-register-all".

(* ===================================================================== *)
(** ** Python values and exceptions *)
(* ===================================================================== *)

Inductive value : Type :=
| VNone
| VBool (b : bool)
| VInt (z : Z)
| VFloat (q : Q)
| VStr (s : string)
| VList (l : list value)
| VDict (d : list (string * value)).

(** Exceptions are told apart by class; of their arguments only the
    missing key and the path are kept. *)
Inductive exn : Type :=
| KeyError (key : string)
| TypeError
| AttributeError
| ValueError
| JSONDecodeError
| OSError (path : string)
| ImportError
| NotImplementedError
| BackendError
| DeviceNotFoundError.

Inductive result (A : Type) : Type :=
| Ok (a : A)
| Raise (e : exn).
Arguments Ok {A} a.
Arguments Raise {A} e.

#[global] Instance result_ret : MRet result := fun A a => Ok a.
#[global] Instance result_bind : MBind result := fun A B k r =>
  match r with
  | Ok a => k a
  | Raise e => Raise e
  end.

(** [for x in xs: body], collecting what each iteration appends; the
    first exception ends the loop. *)
Fixpoint for_each {A B} (body : A → result (list B)) (xs : list A)
  : result (list B) :=
  match xs with
  | [] => Ok []
  | x :: xs' =>
      ys ← body x; zs ← for_each body xs'; Ok (ys ++ zs)
  end.

(** *** Numbers *)

(** [a > b] on floats. *)
Definition Qgtb (a b : Q) : bool :=
  match (a ?= b)%Q with Gt => true | _ => false end.

(** The numeric value of an operand of [/], [>] or [+]; [bool] is a
    subtype of [int].  Another type makes the operator raise
    [TypeError]. *)
Definition as_number (v : value) : result Q :=
  match v with
  | VBool b => Ok (if b then 1%Q else 0%Q)
  | VInt z => Ok (inject_Z z)
  | VFloat q => Ok q
  | _ => Raise TypeError
  end.

(** *** Dictionaries *)

Fixpoint assoc (k : string) (d : list (string * value)) : option value :=
  match d with
  | [] => None
  | (k', v) :: d' => if String.eqb k' k then Some v else assoc k d'
  end.

(** [v[k]] with a string subscript. *)
Definition get_item (v : value) (k : string) : result value :=
  match v with
  | VDict d =>
      match assoc k d with
      | Some x => Ok x
      | None => Raise (KeyError k)
      end
  | _ => Raise TypeError
  end.

(** [v.get(k, default)]. *)
Definition dict_get (v : value) (k : string) (default : value) : result value :=
  match v with
  | VDict d => Ok (from_option id default (assoc k d))
  | _ => Raise AttributeError
  end.

(** [v.values()] and [v.items()]. *)
Definition dict_values (v : value) : result (list value) :=
  match v with
  | VDict d => Ok (map snd d)
  | _ => Raise AttributeError
  end.

Definition dict_items (v : value) : result (list (string * value)) :=
  match v with
  | VDict d => Ok d
  | _ => Raise AttributeError
  end.

(** *** Strings *)

Definition nl : string := String (Ascii.ascii_of_nat 10) EmptyString.

(** [s * n]. *)
Fixpoint str_repeat (s : string) (n : nat) : string :=
  match n with
  | O => EmptyString
  | S n' => s +:+ str_repeat s n'
  end.

(** [format(s, "<n")] for a string [s]: [s.ljust(n)]. *)
Definition ljust (s : string) (n : nat) : string :=
  s +:+ str_repeat " " (n - String.length s).

(** [sub in s] on strings. *)
Fixpoint is_substring (sub s : string) : bool :=
  String.prefix sub s ||
  match s with
  | EmptyString => false
  | String _ s' => is_substring sub s'
  end.

(** [k in container] for a string [k]: key membership on a dict, element
    membership on a list, substring on a string; other containers are
    not iterable. *)
Definition contains (container : value) (k : string) : result bool :=
  match container with
  | VDict d => Ok (bool_decide (is_Some (assoc k d)))
  | VList l =>
      Ok (existsb (λ v, match v with VStr s => String.eqb s k | _ => false end) l)
  | VStr s => Ok (is_substring k s)
  | _ => Raise TypeError
  end.

(* ===================================================================== *)
(** ** Interfaces: the Python library and the compiled extension *)
(* ===================================================================== *)

(** The standard-library functions the profiler front end calls. *)
Class PyLib := {
  (** [json.loads(text)] *)
  json_loads : string → result value;
  (** [json.dumps(v, indent=i)], also the text [json.dump] writes *)
  json_dumps : option nat → value → string;
  (** [format(v, spec)], the conversion behind an f-string field *)
  py_format : value → string → result string;
  (** the text [csv.writer.writerow] emits for one row, line end included *)
  csv_writerow : list value → string;
}.

(** The five functions [core.py] binds from [_corepy_rust] (or replaces
    by its fallback), over a profiler state [S]. *)
Class CorepyRust (S : Type) := {
  _enable_profiling : S → S;
  _disable_profiling : S → S;
  _clear_profile : S → S;
  _get_profile_report : option string → S → string;
  _set_profile_context : option string → S → S;
}.

(** The fallback of [core.py] when the import fails: every function
    passes and the report is a constant. *)
Definition mock_report : value :=
  VDict [("metadata", VDict [("session_id", VStr "mock")]);
         ("operations", VDict []);
         ("total_time_ms", VFloat 0)].

#[global] Instance mock_runtime `{PyLib} : CorepyRust unit := {
  _enable_profiling := λ s, s;
  _disable_profiling := λ s, s;
  _clear_profile := λ s, s;
  _get_profile_report := λ ctx s, json_dumps None mock_report;
  _set_profile_context := λ ctx s, s;
}.

(* ===================================================================== *)
(** ** The extension's profiler *)
(* ===================================================================== *)

(** Modelled from the spec: the profiler of the Rust extension
    [_corepy_rust] (sections 3, 4.2 and 6 of the specification); only
    its Python callers are in the repository's Python sources.  The
    aggregate table is keyed by operation name.  [count] is the spec's
    u64 counter, here unbounded. *)
Record OperationRecord := {
  count : N;
  total_time : Q;
  min_time : Q;
  max_time : Q;
  (** how often each backend was observed, in first-seen order *)
  backends : list (string * N);
  (** the context labels the entry was recorded under *)
  tags : list string;
}.

Record Profiler := {
  enabled : bool;
  table : gmap string OperationRecord;
  (** the calling thread's context stack, top first *)
  context_stack : list string;
  session_id : string;
}.

(** Modelled from the spec: Disabled is the initial state. *)
Definition initial_profiler (sid : string) : Profiler :=
  {| enabled := false; table := ∅; context_stack := []; session_id := sid |}.

Definition set_enabled (b : bool) (p : Profiler) : Profiler :=
  {| enabled := b; table := table p;
     context_stack := context_stack p; session_id := session_id p |}.

Definition set_table (t : gmap string OperationRecord) (p : Profiler) : Profiler :=
  {| enabled := enabled p; table := t;
     context_stack := context_stack p; session_id := session_id p |}.

Definition set_stack (st : list string) (p : Profiler) : Profiler :=
  {| enabled := enabled p; table := table p;
     context_stack := st; session_id := session_id p |}.

(** The label that tags a newly recorded operation. *)
Definition current_context (p : Profiler) : option string :=
  head (context_stack p).

Fixpoint bump_backend (b : string) (l : list (string * N)) : list (string * N) :=
  match l with
  | [] => [(b, 1%N)]
  | (b', n) :: l' =>
      if String.eqb b' b then (b', N.succ n) :: l'
      else (b', n) :: bump_backend b l'
  end.

Definition add_tag (ctx : option string) (l : list string) : list string :=
  match ctx with
  | Some c => if bool_decide (c ∈ l) then l else l ++ [c]
  | None => l
  end.

Definition new_record (duration : Q) (backend : string) (ctx : option string)
  : OperationRecord :=
  {| count := 1; total_time := duration;
     min_time := duration; max_time := duration;
     backends := [(backend, 1%N)]; tags := add_tag ctx [] |}.

Definition update_record (duration : Q) (backend : string) (ctx : option string)
    (r : OperationRecord) : OperationRecord :=
  {| count := N.succ (count r);
     total_time := (total_time r + duration)%Q;
     min_time := Qmin (min_time r) duration;
     max_time := Qmax (max_time r) duration;
     backends := bump_backend backend (backends r);
     tags := add_tag ctx (tags r) |}.

(** Modelled from the spec: [record(op_name, duration, backend)], what a
    timed kernel call does to the profiler.  Disabled: returns at once.
    Enabled: looks up or creates the record, counts the call, accumulates
    the time, updates the extremes and the backend tally, and tags the
    entry with the top of the context stack. *)
Definition record (op_name : string) (duration : Q) (backend : string)
    (p : Profiler) : Profiler :=
  if enabled p then
    let ctx := current_context p in
    let r := match table p !! op_name with
             | Some r => update_record duration backend ctx r
             | None => new_record duration backend ctx
             end in
    set_table (<[op_name := r]> (table p)) p
  else p.

(** Modelled from the spec: the context stack, "push on scope entry, pop
    on scope exit", with no effect when a pop finds the stack empty.  The
    one entry point [core.py] has for both is [_set_profile_context]:
    scope entry passes the label, scope exit passes [None]. *)
Definition push_context (label : string) (p : Profiler) : Profiler :=
  set_stack (label :: context_stack p) p.

Definition pop_context (p : Profiler) : Profiler :=
  set_stack (tail (context_stack p)) p.

(** Modelled from the spec: the most frequently observed backend, the
    first seen winning a tie. *)
Fixpoint most_frequent (best : string * N) (l : list (string * N)) : string :=
  match l with
  | [] => best.1
  | (b, n) :: l' =>
      most_frequent (if (best.2 <? n)%N then (b, n) else best) l'
  end.

Definition primary_backend (r : OperationRecord) : string :=
  match backends r with
  | [] => "unknown"
  | x :: l => most_frequent x l
  end.

Definition sumQ (l : list Q) : Q := foldr Qplus 0%Q l.

(** The entries of a snapshot: all of them, or those tagged with the
    context filter. *)
Definition tagged (ctx : option string) (e : string * OperationRecord) : bool :=
  match ctx with
  | Some c => bool_decide (c ∈ tags e.2)
  | None => true
  end.

Definition selected (ctx : option string) (p : Profiler)
  : list (string * OperationRecord) :=
  List.filter (tagged ctx) (map_to_list (table p)).

Definition grand_total (entries : list (string * OperationRecord)) : Q :=
  sumQ (map (λ e, total_time e.2) entries).

(** Modelled from the spec: the share of a record in the grand total.
    Section 4.2 gives it as [total_time / Σ total_time]; section 8 has
    the shares of a snapshot sum to 100, and every reader of the field in
    the sources takes it on the 0 to 100 scale ([detect_bottlenecks]
    divides it by 100 before comparing it with a fraction, the table
    prints it under [%], [test_bottleneck_detection] expects it above
    5.0).  The field is therefore the share in percent. *)
Definition percent_of (total grand : Q) : Q :=
  if Qeq_bool grand 0 then 0%Q else (100 * total / grand)%Q.

(** Modelled from the spec: one entry of the exported layout of section
    6, with the fields of the CSV columns of section 4.3. *)
Definition record_json (grand : Q) (e : string * OperationRecord) : string * value :=
  let r := e.2 in
  (e.1,
   VDict [("operation", VStr e.1);
          ("count", VInt (Z.of_N (count r)));
          ("total_time_ms", VFloat (total_time r));
          ("avg_time_ms", VFloat (total_time r / inject_Z (Z.of_N (count r))));
          ("min_time_ms", VFloat (min_time r));
          ("max_time_ms", VFloat (max_time r));
          ("primary_backend", VStr (primary_backend r));
          ("percent_total", VFloat (percent_of (total_time r) grand))]).

(** Modelled from the spec: [get_report(context_filter?)], the snapshot
    [{metadata: {session_id}, operations, total_time_ms}]. *)
Definition get_report (ctx : option string) (p : Profiler) : value :=
  let entries := selected ctx p in
  let grand := grand_total entries in
  VDict [("metadata", VDict [("session_id", VStr (session_id p))]);
         ("operations", VDict (map (record_json grand) entries));
         ("total_time_ms", VFloat grand)].

(** Modelled from the spec: the extension behind the five bindings.
    [clear] empties the table only. *)
#[global] Instance rust_runtime `{PyLib} : CorepyRust Profiler := {
  _enable_profiling := set_enabled true;
  _disable_profiling := set_enabled false;
  _clear_profile := set_table ∅;
  _get_profile_report := λ ctx p, json_dumps None (get_report ctx p);
  _set_profile_context := λ ctx p,
    match ctx with
    | Some label => push_context label p
    | None => pop_context p
    end;
}.

(* ===================================================================== *)
(** ** The world a call runs in *)
(* ===================================================================== *)

(** The profiler state of the extension and the file system: the text of
    each file, and the paths [open(path, 'w')] fails on. *)
Record World (S : Type) := {
  rt : S;
  files : gmap string string;
  unwritable : gset string;
}.
Arguments rt {S} w.
Arguments files {S} w.
Arguments unwritable {S} w.

Definition M (S A : Type) : Type := World S → result A * World S.

#[global] Instance M_ret {S} : MRet (M S) := λ A a w, (Ok a, w).
#[global] Instance M_bind {S} : MBind (M S) := λ A B k m w,
  match m w with
  | (Ok a, w') => k a w'
  | (Raise e, w') => (Raise e, w')
  end.

(** A call that only reads the profiler. *)
Definition observe {S A} (f : S → result A) : M S A := λ w, (f (rt w), w).

(** A call into the extension that changes the profiler and returns
    [None]. *)
Definition update {S} (f : S → S) : M S unit := λ w,
  (Ok (), {| rt := f (rt w); files := files w; unwritable := unwritable w |}).

Definition set_file {S} (path text : string) (w : World S) : World S :=
  {| rt := rt w; files := <[path := text]> (files w);
     unwritable := unwritable w |}.

(** [open(path, 'w')]: the file is created or truncated. *)
Definition open_w {S} (path : string) : M S unit := λ w,
  if bool_decide (path ∈ unwritable w) then (Raise (OSError path), w)
  else (Ok (), set_file path EmptyString w).

(** [f.write(text)] on the file opened at [path]. *)
Definition write {S} (path text : string) : M S unit := λ w,
  (Ok (), set_file path (default EmptyString (files w !! path) +:+ text) w).

(** [for x in xs: body] for a body with effects. *)
Fixpoint for_eachM {S A} (body : A → M S unit) (xs : list A) : M S unit :=
  match xs with
  | [] => mret ()
  | x :: xs' => _ ← body x; for_eachM body xs'
  end.

(* ===================================================================== *)
(** ** corepy/profiler/core.py *)
(* ===================================================================== *)

(** *** Sorting the table rows *)

(** [ops.sort(key=..., reverse=True)] on numeric keys: a stable sort,
    largest key first, rows of equal key in their original order. *)
Fixpoint insert_desc (x : Q * value) (l : list (Q * value)) : list (Q * value) :=
  match l with
  | [] => [x]
  | y :: l' => if Qgtb y.1 x.1 then y :: insert_desc x l' else x :: y :: l'
  end.

Definition sort_desc (l : list (Q * value)) : list (Q * value) :=
  foldr insert_desc [] l.

(** The keys are computed first; they are compared only when there are
    at least two rows, and comparing needs numbers. *)
Definition sort_by_total_desc (ops : list value) : result (list value) :=
  keys ← mapM (λ x, dict_get x "total_time_ms" (VInt 0)) ops;
  match ops with
  | [] | [_] => Ok ops
  | _ => nums ← mapM as_number keys;
         Ok (map snd (sort_desc (zip nums ops)))
  end.

Section Core.
Context `{PyLib} {S : Type} `{!CorepyRust S}.

Definition enable_profiling : M S unit := update _enable_profiling.
Definition disable_profiling : M S unit := update _disable_profiling.
Definition clear_profile : M S unit := update _clear_profile.

Definition banner : string := str_repeat "=" 80.

Definition table_header : string :=
  ljust "Operation" 20 +:+ " " +:+ ljust "Count" 8 +:+ " " +:+
  ljust "Total(ms)" 10 +:+ " " +:+ ljust "Avg(ms)" 10 +:+ " " +:+
  ljust "%" 6 +:+ " " +:+ "Backend".

(** [if context: lines.append(...)]: [None] and the empty string are
    both false. *)
Definition context_line (context : option string) : list string :=
  match context with
  | Some c => if String.eqb c EmptyString then [] else ["Context: " +:+ c]
  | None => []
  end.

Definition table_row (op : value) : result string :=
  name ← get_item op "operation";
  count ← get_item op "count";
  total ← get_item op "total_time_ms";
  avg ← get_item op "avg_time_ms";
  percent ← dict_get op "percent_total" (VFloat 0);
  backend ← dict_get op "primary_backend" (VStr "unknown");
  s1 ← py_format name "<20";
  s2 ← py_format count "<8";
  s3 ← py_format total "<10.2f";
  s4 ← py_format avg "<10.3f";
  s5 ← py_format percent "<6.1f";
  s6 ← py_format backend EmptyString;
  Ok (s1 +:+ " " +:+ s2 +:+ " " +:+ s3 +:+ " " +:+ s4 +:+ " " +:+
      s5 +:+ " " +:+ s6).

(** The text formatting part of [profile_report]. *)
Definition text_report (context : option string) (data : value) : result value :=
  total ← get_item data "total_time_ms";
  total_s ← py_format total ".2f";
  let lines :=
    [banner; "COREPY PROFILE REPORT (Total: " +:+ total_s +:+ "ms)"]
    ++ context_line context
    ++ [banner; table_header; str_repeat "-" 80] in
  operations ← dict_get data "operations" (VDict []);
  ops ← dict_values operations;
  sorted ← sort_by_total_desc ops;
  rows ← mapM table_row sorted;
  Ok (VStr (String.concat nl (lines ++ rows ++ [banner]))).

Definition profile_report (context : option string) (format : string) (s : S)
  : result value :=
  let json_str := _get_profile_report context s in
  data ← json_loads json_str;
  if String.eqb format "dict" then Ok data
  else if String.eqb format "json" then Ok (VStr json_str)
  else text_report context data.

(** *** Export *)

Definition csv_keys : list string :=
  ["operation"; "count"; "total_time_ms"; "avg_time_ms"; "min_time_ms";
   "max_time_ms"; "primary_backend"; "percent_total"].

(** [{k: op.get(k, 0) for k in keys}], in column order. *)
Definition csv_row (op : value) : result (list value) :=
  mapM (λ k, dict_get op k (VInt 0)) csv_keys.

(** One step of the loop of [_convert_to_speedscope]: the event it
    appends and the advanced start time.  The frame index is
    [len(events)]: the one-key dict [{"name": op_name}] the code looks
    up is never an element of [events], whose dicts have three keys. *)
Definition speedscope_step (acc : Q * list value) (item : string * value)
  : result (Q * list value) :=
  let '(start_time, events) := acc in
  duration ← get_item item.2 "total_time_ms";
  let event := VDict [("type", VStr "O");
                      ("frame", VInt (Z.of_nat (length events)));
                      ("at", VFloat start_time)] in
  d ← as_number duration;
  Ok ((start_time + d)%Q, events ++ [event]).

Fixpoint speedscope_loop (acc : Q * list value) (items : list (string * value))
  : result (Q * list value) :=
  match items with
  | [] => Ok acc
  | item :: items' => acc' ← speedscope_step acc item; speedscope_loop acc' items'
  end.

(** The events are built and dropped; the report itself is returned. *)
Definition _convert_to_speedscope (report : value) : result value :=
  operations ← dict_get report "operations" (VDict []);
  items ← dict_items operations;
  _ ← speedscope_loop (0%Q, []) items;
  Ok report.

Definition export_profile (filename format : string) (context : option string)
  : M S unit :=
  report ← observe (profile_report context "dict");
  if String.eqb format "json" then
    _ ← open_w filename;
    write filename (json_dumps (Some 2) report)
  else if String.eqb format "csv" then
    operations ← observe (λ _, dict_get report "operations" (VDict []));
    ops ← observe (λ _, dict_values operations);
    match ops with
    | [] => mret ()
    | _ =>
        _ ← open_w filename;
        _ ← write filename (csv_writerow (map VStr csv_keys));
        for_eachM (λ op, row ← observe (λ _, csv_row op);
                         write filename (csv_writerow row)) ops
    end
  else if String.eqb format "flamegraph" then
    speedscope_data ← observe (λ _, _convert_to_speedscope report);
    _ ← open_w filename;
    write filename (json_dumps None speedscope_data)
  else mret ().

(** *** Context scopes *)

Record ProfileContext := {
  name : string;
  prev_context : option string;
}.

Definition ProfileContext_init (name : string) : ProfileContext :=
  {| name := name; prev_context := None |}.

Definition ProfileContext_enter (c : ProfileContext) : M S unit :=
  update (_set_profile_context (Some (name c))).

Definition ProfileContext_exit (c : ProfileContext) : M S unit :=
  update (_set_profile_context None).

(** [with c: body].  [__exit__] runs however the body ends, and it
    returns [None], so an exception of the body propagates. *)
Definition with_context {A} (c : ProfileContext) (body : M S A) : M S A :=
  λ w,
    match ProfileContext_enter c w with
    | (Ok _, w1) =>
        let '(r, w2) := body w1 in
        match ProfileContext_exit c w2 with
        | (Ok _, w3) => (r, w3)
        | (Raise e, w3) => (Raise e, w3)
        end
    | (Raise e, w1) => (Raise e, w1)
    end.

(** [@profile_operation]: the wrapped function runs in a scope named
    after it. *)
Definition profile_operation {A B} (func_name : string) (func : A → M S B)
  : A → M S B :=
  λ args, with_context (ProfileContext_init func_name) (func args).

(** *** Analysis *)

Definition bottleneck_entry (threshold : Q) (op : value) : result (list value) :=
  pt ← dict_get op "percent_total" (VFloat 0);
  p ← as_number pt;
  let percent := (p / 100)%Q in
  if Qgtb percent threshold then
    operation ← get_item op "operation";
    percent_total ← get_item op "percent_total";
    time_ms ← get_item op "total_time_ms";
    shown ← py_format (VFloat (percent * 100)) ".1f";
    Ok [VDict [("operation", operation);
               ("percent_total", percent_total);
               ("time_ms", time_ms);
               ("severity",
                VStr (if Qgtb percent (1 # 2) then "CRITICAL" else "HIGH"));
               ("reason", VStr ("Takes " +:+ shown +:+ "% of execution time"));
               ("suggestion", VStr "Check input size or switch backend")]]
  else Ok [].

Definition detect_bottlenecks (threshold : Q) (s : S) : result (list value) :=
  report ← profile_report None "dict" s;
  operations ← dict_get report "operations" (VDict []);
  ops ← dict_values operations;
  for_each (bottleneck_entry threshold) ops.

Definition default_bottleneck_threshold : Q := 20 # 100.

Definition is_str (v : value) (s : string) : bool :=
  match v with
  | VStr s' => String.eqb s' s
  | _ => false
  end.

Definition recommendation_entry (item : string * value) : result (list value) :=
  let '(op_name, op_data) := item in
  if String.eqb op_name "matmul" then
    backend ← get_item op_data "primary_backend";
    if is_str backend "CPU" then
      avg ← get_item op_data "avg_time_ms";
      a ← as_number avg;
      if Qgtb a 10 then
        avg' ← get_item op_data "avg_time_ms";
        shown ← py_format avg' ".1f";
        Ok [VDict [("priority", VStr "HIGH");
                   ("title", VStr "Enable GPU for Matrix Multiplication");
                   ("description",
                    VStr ("Matmul is taking " +:+ shown +:+ "ms on CPU."));
                   ("estimated_speedup", VStr "10x-50x");
                   ("code_example", VStr "x.to('cuda')")]]
      else Ok []
    else Ok []
  else Ok [].

Definition get_recommendations (s : S) : result (list value) :=
  report ← profile_report None "dict" s;
  operations ← dict_get report "operations" (VDict []);
  items ← dict_items operations;
  for_each recommendation_entry items.

Definition regression_entry (baseline : value) (threshold : Q)
    (item : string * value) : result (list value) :=
  let '(op_name, curr_op) := item in
  base_ops ← dict_get baseline "operations" (VDict []);
  present ← contains base_ops op_name;
  if (present : bool) then
    base_ops' ← get_item baseline "operations";
    base_op ← get_item base_ops' op_name;
    base_time ← get_item base_op "avg_time_ms";
    curr_time ← get_item curr_op "avg_time_ms";
    b ← as_number base_time;
    if Qgtb b 0 then
      c ← as_number curr_time;
      if Qgtb (c / b) threshold then
        Ok [VDict [("operation", VStr op_name);
                   ("baseline_ms", base_time);
                   ("actual_ms", curr_time);
                   ("slowdown_factor", VFloat (c / b));
                   ("causes", VList [VStr "Increased data size";
                                     VStr "Change in algorithm"])]]
      else Ok []
    else Ok []
  else Ok [].

Definition detect_regressions (baseline : value) (threshold : Q) (s : S)
  : result (list value) :=
  current ← profile_report None "dict" s;
  operations ← dict_get current "operations" (VDict []);
  items ← dict_items operations;
  for_each (regression_entry baseline threshold) items.

Definition default_regression_threshold : Q := 12 # 10.

End Core.

(* ===================================================================== *)
(** ** corepy/tensor.py *)
(* ===================================================================== *)

Module Tensor.

(** Modelled from the spec: [backend/types.py] is not part of the
    sources at hand.  [BackendType] is the spec's "enum of execution
    targets (CPU, GPU, ...)"; its values are the lower-case names
    [Tensor.__init__] builds members from. *)
Inductive BackendType := CPU | GPU.

#[global] Instance BackendType_eq_dec : EqDecision BackendType.
Proof. solve_decision. Defined.

Definition BackendType_of_value (s : string) : result BackendType :=
  if String.eqb s "cpu" then Ok CPU
  else if String.eqb s "gpu" then Ok GPU
  else Raise ValueError.

Inductive DataType := FLOAT32 | FLOAT64 | INT32 | INT64 | BOOL.

Inductive OperationType := COMPUTE_VECTOR.

Record OperationProperties := {
  element_count : nat;
  shape : list nat;
  dtype_bytes : nat;
}.

(** The data a tensor is built from: a number, a (nested) list, or a
    NumPy array given by its shape and its elements in C order.
    Tuples, bytes-like objects and memoryviews are not modelled. *)
Inductive pydata :=
| DScalar (x : Q)
| DList (l : list pydata)
| DArray (shape : list nat) (flat : list Q).

(** What [tensor.py] imports from the [backend] package, none of which
    is part of the sources at hand. *)
Class Backend := {
  DeviceInfo : Type;
  (** [get_session().device_info] *)
  device_info : DeviceInfo;
  select_backend : OperationType → OperationProperties → DeviceInfo →
                   option BackendType → result BackendType;
  (** [dispatch_kernel(op, backend, *args)] *)
  dispatch_kernel : string → BackendType → list pydata → result pydata;
}.

(** The kernels of [_corepy_rust] the binary operations call, on the
    element buffers the pointers stand for. *)
Class Ffi := {
  tensor_add_f32 : list Q → list Q → nat → list Q;
  tensor_sub_f32 : list Q → list Q → nat → list Q;
  tensor_mul_f32 : list Q → list Q → nat → list Q;
  tensor_div_f32 : list Q → list Q → nat → list Q;
  tensor_matmul_f32 : list Q → list Q → nat → Q;
  tensor_matmul_2d_f32 : list Q → list Q → nat → nat → nat → list Q;
}.

Record Tensor := {
  _dtype : DataType;
  _shape : list nat;
  _element_count : nat;
  _backing_data : pydata;
  _backend_type : BackendType;
  _device : option string;
}.

Definition backend (t : Tensor) : BackendType := _backend_type t.

(** The right operand of a binary operator. *)
Inductive operand :=
| Number (x : Q)
| ATensor (t : Tensor)
| Other.

(** The shape loop of [__init__]: descend into the first element while
    the current object is a non-empty list. *)
Fixpoint list_shape (d : pydata) : list nat :=
  match d with
  | DList (x :: l) => S (length l) :: list_shape x
  | _ => []
  end.

Definition product (dims : list nat) : nat := foldr Nat.mul 1%nat dims.

Fixpoint lower (s : string) : string :=
  match s with
  | EmptyString => EmptyString
  | String c s' =>
      let n := Ascii.nat_of_ascii c in
      String (if (65 <=? n)%nat && (n <=? 90)%nat
              then Ascii.ascii_of_nat (n + 32) else c) (lower s')
  end.

(** A string argument is true when it is given and not empty. *)
Definition truthy (o : option string) : option string :=
  match o with
  | Some s => if String.eqb s EmptyString then None else Some s
  | None => None
  end.

(** The [backend] argument: a string or a member. *)
Inductive backend_arg :=
| ByName (s : string)
| ByMember (b : BackendType).

Definition backend_arg_truthy (a : option backend_arg) : option backend_arg :=
  match a with
  | Some (ByName s) => if String.eqb s EmptyString then None else a
  | _ => a
  end.

Definition requested_backend (backend : option backend_arg)
    (device : option string) : result (option BackendType) :=
  match truthy device with
  | Some d =>
      if is_substring "cuda" d || is_substring "gpu" d then Ok (Some GPU)
      else if is_substring "cpu" d then Ok (Some CPU)
      else Ok None
  | None =>
      match backend_arg_truthy backend with
      | Some (ByName s) => b ← BackendType_of_value (lower s); Ok (Some b)
      | Some (ByMember b) => Ok (Some b)
      | None => Ok None
      end
  end.

(** [flatten] of [_get_buffer_pointer]. *)
Fixpoint flatten (d : pydata) : list pydata :=
  match d with
  | DList l => concat (map flatten l)
  | _ => [d]
  end.

(** [float(x)]. *)
Definition to_float (d : pydata) : result Q :=
  match d with
  | DScalar x => Ok x
  | _ => Raise TypeError
  end.

(** [int(x)]: truncation toward zero. *)
Definition to_int (d : pydata) : result Z :=
  x ← to_float d; Ok (Qnum x ÷ Z.pos (Qden x))%Z.

Section WithBackend.
Context `{Backend} (ffi : option Ffi).

(** [Tensor(data, dtype=..., backend=..., device=...)] *)
Definition Tensor_init (data : pydata) (dtype : DataType)
    (backend : option backend_arg) (device : option string) : result Tensor :=
  let '(shape, count, backing) :=
    match data with
    | DList _ => let sh := list_shape data in (sh, product sh, data)
    | DArray sh flat => (sh, product sh, data)
    | DScalar _ => ([1%nat], 1%nat, DList [data])
    end in
  requested ← requested_backend backend device;
  let op_props := {| element_count := count; shape := shape;
                     dtype_bytes := 4 |} in
  b ← select_backend COMPUTE_VECTOR op_props device_info requested;
  Ok {| _dtype := dtype; _shape := shape; _element_count := count;
        _backing_data := backing; _backend_type := b;
        _device := device |}.

(** [_get_buffer_pointer(dtype_char)]: the elements behind the
    pointer, and the count. *)
Definition _get_buffer_pointer (self : Tensor) (dtype_char : string)
  : result (list Q * nat) :=
  match _backing_data self with
  | DArray sh flat => Ok (flat, product sh)
  | DList l =>
      if String.eqb dtype_char "u1" then
        buffer ← mapM (λ x, z ← to_int x;
                            if bool_decide (0 ≤ z < 256)%Z
                            then Ok (inject_Z z) else Raise ValueError)
                      (flatten (DList l));
        Ok (buffer, length buffer)
      else if String.eqb dtype_char "f4" then
        buffer ← mapM to_float (flatten (DList l));
        Ok (buffer, _element_count self)
      else if String.eqb dtype_char "i4" then
        buffer ← mapM (λ x, z ← to_int x; Ok (inject_Z z))
                      (flatten (DList l));
        Ok (buffer, _element_count self)
      else Raise ValueError
  | DScalar _ => Raise ValueError
  end.

(** The [try] block of [_binary_op]: [None] when the import of the
    extension fails and the code falls through to the dispatcher. *)
Definition binary_fast_path (self other : Tensor) (op : string)
  : option (result Tensor) :=
  match ffi with
  | None => None
  | Some k =>
      Some ('(a, count_a) ← _get_buffer_pointer self "f4";
            '(b, count_b) ← _get_buffer_pointer other "f4";
            if bool_decide (count_a ≠ count_b) then Raise ValueError
            else
              let out :=
                if String.eqb op "add" then tensor_add_f32 a b count_a
                else if String.eqb op "sub" then tensor_sub_f32 a b count_a
                else if String.eqb op "mul" then tensor_mul_f32 a b count_a
                else if String.eqb op "div" then tensor_div_f32 a b count_a
                else replicate count_a 0%Q in
              Tensor_init (DList (DScalar <$> out)) (_dtype self)
                (Some (ByMember (backend self))) None)
  end.

Definition dispatch_fallback (self other : Tensor) (op : string)
  : result Tensor :=
  r ← dispatch_kernel op (backend self)
        [_backing_data self; _backing_data other];
  Tensor_init r (_dtype self) (Some (ByMember (backend self))) None.

Definition _binary_op (self : Tensor) (op : string) (other : operand)
  : result Tensor :=
  other' ← match other with
           | Number x =>
               t ← Tensor_init
                     (DList (replicate (_element_count self) (DScalar x)))
                     FLOAT32 None (_device self);
               Ok (Some t)
           | ATensor t => Ok (Some t)
           | Other => Ok None
           end;
  match other' with
  | None => Raise ValueError
  | Some o =>
      if bool_decide (backend o ≠ backend self) then Raise BackendError
      else
        match (if bool_decide (backend self = CPU)
               then binary_fast_path self o op else None) with
        | Some r => r
        | None => dispatch_fallback self o op
        end
  end.

Definition __add__ (self : Tensor) (other : operand) := _binary_op self "add" other.
Definition __sub__ (self : Tensor) (other : operand) := _binary_op self "sub" other.
Definition __mul__ (self : Tensor) (other : operand) := _binary_op self "mul" other.
Definition __truediv__ (self : Tensor) (other : operand) := _binary_op self "div" other.

(** The [try] block of [matmul]: [None] when control leaves it
    without returning (failed import, or shapes that are neither
    1-D with 1-D nor 2-D with 2-D). *)
Definition matmul_fast_path (self other : Tensor) : option (result Tensor) :=
  match ffi with
  | None => None
  | Some k =>
      match _shape self, _shape other with
      | [_], [_] =>
          Some ('(a, count_a) ← _get_buffer_pointer self "f4";
                '(b, count_b) ← _get_buffer_pointer other "f4";
                if bool_decide (count_a ≠ count_b) then Raise ValueError
                else Tensor_init (DScalar (tensor_matmul_f32 a b count_a))
                       (_dtype self) (Some (ByMember (backend self))) None)
      | [m; k1], [k2; n] =>
          Some (if bool_decide (k1 ≠ k2) then Raise ValueError
                else
                  '(a, _) ← _get_buffer_pointer self "f4";
                  '(b, _) ← _get_buffer_pointer other "f4";
                  Tensor_init
                    (DArray [m; n] (tensor_matmul_2d_f32 a b m k1 n))
                    (_dtype self) (Some (ByMember (backend self))) None)
      | _, _ => None
      end
  end.

Definition matmul (self : Tensor) (other : operand) : result Tensor :=
  match other with
  | ATensor o =>
      match (if bool_decide (backend self = CPU)
             then matmul_fast_path self o else None) with
      | Some r => r
      | None => dispatch_fallback self o "matmul"
      end
  | _ => Raise ValueError
  end.

End WithBackend.

(** *** A backend package and kernels that compute *)

(** Modelled from the spec: the selector of section 4.1 reduced to its
    first rule and the DEFAULT heuristic.  An explicit request is
    honoured when the device exists and fails with
    [DeviceNotFoundError] otherwise; without a request, data below the
    size threshold stays on the CPU and larger data goes to the
    accelerator when there is one. *)
Record devices := { has_gpu : bool; gpu_threshold : nat }.

Definition select (kind : OperationType) (props : OperationProperties)
    (info : devices) (requested : option BackendType) : result BackendType :=
  match requested with
  | Some CPU => Ok CPU
  | Some GPU => if has_gpu info then Ok GPU else Raise DeviceNotFoundError
  | None =>
      if (element_count props <? gpu_threshold info)%nat then Ok CPU
      else if has_gpu info then Ok GPU else Ok CPU
  end.

(** The Python kernels of [ops/math.py] are stubs that raise
    [NotImplementedError]; modelled from the spec (section 7): a
    backend without a kernel for the operation is a [BackendError]. *)
Definition dispatch (op : string) (b : BackendType) (args : list pydata)
  : result pydata :=
  match b with
  | CPU => if String.eqb op "add" || String.eqb op "matmul"
           then Raise NotImplementedError else Raise BackendError
  | GPU => Raise BackendError
  end.

Definition model_backend (info : devices) : Backend := {|
  DeviceInfo := devices;
  device_info := info;
  select_backend := select;
  dispatch_kernel := dispatch;
|}.

Definition elementwise (f : Q → Q → Q) (a b : list Q) (n : nat) : list Q :=
  take n (zip_with f a b).

Definition dot (a b : list Q) (n : nat) : Q :=
  foldr Qplus 0%Q (take n (zip_with Qmult a b)).

(** Row [i] of the [m] by [k] matrix times column [j] of the [k] by
    [n] matrix, both in C order. *)
Definition matmul_2d (a b : list Q) (m k n : nat) : list Q :=
  i ← seq 0 m; j ← seq 0 n;
  [foldr Qplus 0%Q
     ((λ l, (nth (i * k + l) a 0 * nth (l * n + j) b 0)%Q) <$> seq 0 k)].

(** Kernels in exact arithmetic. *)
Definition model_ffi : Ffi := {|
  tensor_add_f32 := elementwise Qplus;
  tensor_sub_f32 := elementwise Qminus;
  tensor_mul_f32 := elementwise Qmult;
  tensor_div_f32 := elementwise Qdiv;
  tensor_matmul_f32 := dot;
  tensor_matmul_2d_f32 := matmul_2d;
|}.

End Tensor.

(* ===================================================================== *)
(** ** An executable Python library *)
(* ===================================================================== *)

(** A stand-in for [json], [csv] and [format] that computes, for running
    the front end on concrete profiler states.  Its JSON text keeps the
    layout of [json.dumps] (separators, [indent]); a float is written
    exactly, as [n/d], strings are written without escapes. *)
Module PyModel.

Definition dquote : string := String (Ascii.ascii_of_nat 34) EmptyString.

Definition show_Z (z : Z) : string := NilZero.string_of_int (Z.to_int z).

Definition show_exact (q : Q) : string :=
  show_Z (Qnum q) +:+ "/" +:+ show_Z (Z.pos (Qden q)).

Definition newline_indent (indent : option nat) (level : nat) : string :=
  match indent with
  | Some n => nl +:+ str_repeat " " (n * level)
  | None => EmptyString
  end.

Definition item_separator (indent : option nat) (level : nat) : string :=
  match indent with
  | Some _ => "," +:+ newline_indent indent level
  | None => ", "
  end.

Definition bracket (indent : option nat) (level : nat) (l r : string)
    (items : list string) : string :=
  match items with
  | [] => l +:+ r
  | _ => l +:+ newline_indent indent (S level)
         +:+ String.concat (item_separator indent (S level)) items
         +:+ newline_indent indent level +:+ r
  end.

Fixpoint dumps (indent : option nat) (level : nat) (v : value) : string :=
  match v with
  | VNone => "null"
  | VBool b => if b then "true" else "false"
  | VInt z => show_Z z
  | VFloat q => show_exact q
  | VStr s => dquote +:+ s +:+ dquote
  | VList l => bracket indent level "[" "]" (map (dumps indent (S level)) l)
  | VDict d =>
      bracket indent level "{" "}"
        (map (λ kv, dquote +:+ kv.1 +:+ dquote +:+ ": "
                    +:+ dumps indent (S level) kv.2) d)
  end.

(** *** Parsing *)

Definition is_ws (c : Ascii.ascii) : bool :=
  let n := Ascii.nat_of_ascii c in
  (n =? 32)%nat || (n =? 10)%nat || (n =? 13)%nat || (n =? 9)%nat.

Fixpoint skip_ws (s : string) : string :=
  match s with
  | String c s' => if is_ws c then skip_ws s' else s
  | EmptyString => s
  end.

Fixpoint span (p : Ascii.ascii → bool) (s : string) : string * string :=
  match s with
  | String c s' =>
      if p c then let '(a, b) := span p s' in (String c a, b)
      else (EmptyString, s)
  | EmptyString => (EmptyString, EmptyString)
  end.

Definition is_char (n : nat) (c : Ascii.ascii) : bool :=
  (Ascii.nat_of_ascii c =? n)%nat.

Definition is_number_char (c : Ascii.ascii) : bool :=
  let n := Ascii.nat_of_ascii c in
  ((48 <=? n)%nat && (n <=? 57)%nat) || (n =? 45)%nat.

Definition parse_Z (s : string) : option Z :=
  Z.of_int <$> NilZero.int_of_string s.

(** An integer literal, or [n/d] for a float. *)
Definition parse_number (s : string) : option (value * string) :=
  let '(n, rest) := span is_number_char s in
  match rest with
  | String c rest' =>
      if is_char 47 c then
        let '(d, rest'') := span is_number_char rest' in
        z ← parse_Z n;
        match parse_Z d with
        | Some (Z.pos p) => Some (VFloat (z # p), rest'')
        | _ => None
        end
      else (λ z, (VInt z, rest)) <$> parse_Z n
  | EmptyString => (λ z, (VInt z, rest)) <$> parse_Z n
  end.

(** The text up to the closing quote. *)
Definition parse_string (s : string) : option (string * string) :=
  let '(body, rest) := span (λ c, negb (is_char 34 c)) s in
  match rest with
  | String _ rest' => Some (body, rest')
  | EmptyString => None
  end.

Definition expect (n : nat) (s : string) : option string :=
  match skip_ws s with
  | String c s' => if is_char n c then Some s' else None
  | EmptyString => None
  end.

Definition keyword (k : string) (v : value) (s : string) : option (value * string) :=
  if String.prefix k s
  then Some (v, String.substring (String.length k) (String.length s) s)
  else None.

Fixpoint parse (fuel : nat) (s : string) : option (value * string) :=
  match fuel with
  | O => None
  | S fuel' =>
      match skip_ws s with
      | EmptyString => None
      | String c s' =>
          if is_char 123 c then
            match skip_ws s' with
            | String c' s'' =>
                if is_char 125 c' then Some (VDict [], s'')
                else '(d, rest) ← parse_members fuel' s'; Some (VDict d, rest)
            | EmptyString => None
            end
          else if is_char 91 c then
            match skip_ws s' with
            | String c' s'' =>
                if is_char 93 c' then Some (VList [], s'')
                else '(l, rest) ← parse_elements fuel' s'; Some (VList l, rest)
            | EmptyString => None
            end
          else if is_char 34 c then
            '(str, rest) ← parse_string s'; Some (VStr str, rest)
          else if is_char 110 c then keyword "null" VNone (String c s')
          else if is_char 116 c then keyword "true" (VBool true) (String c s')
          else if is_char 102 c then keyword "false" (VBool false) (String c s')
          else parse_number (String c s')
      end
  end
with parse_elements (fuel : nat) (s : string) : option (list value * string) :=
  match fuel with
  | O => None
  | S fuel' =>
      '(v, rest) ← parse fuel' s;
      match skip_ws rest with
      | String c rest' =>
          if is_char 44 c then
            '(l, rest'') ← parse_elements fuel' rest'; Some (v :: l, rest'')
          else if is_char 93 c then Some ([v], rest')
          else None
      | EmptyString => None
      end
  end
with parse_members (fuel : nat) (s : string)
  : option (list (string * value) * string) :=
  match fuel with
  | O => None
  | S fuel' =>
      s1 ← expect 34 s;
      '(k, s2) ← parse_string s1;
      s3 ← expect 58 s2;
      '(v, rest) ← parse fuel' s3;
      match skip_ws rest with
      | String c rest' =>
          if is_char 44 c then
            '(d, rest'') ← parse_members fuel' rest'; Some ((k, v) :: d, rest'')
          else if is_char 125 c then Some ([(k, v)], rest')
          else None
      | EmptyString => None
      end
  end.

Definition loads (s : string) : result value :=
  match parse (S (String.length s)) s with
  | Some (v, rest) =>
      match skip_ws rest with
      | EmptyString => Ok v
      | _ => Raise JSONDecodeError
      end
  | None => Raise JSONDecodeError
  end.

(** *** Formatting *)

(** [q] rounded to an integer, ties to even. *)
Definition round_half_even (q : Q) : Z :=
  let f := Qfloor q in
  match (q - inject_Z f ?= 1 # 2)%Q with
  | Gt => (f + 1)%Z
  | Lt => f
  | Eq => if Z.even f then f else (f + 1)%Z
  end.

Definition pad_zeros (s : string) (n : nat) : string :=
  str_repeat "0" (n - String.length s) +:+ s.

(** [format(q, ".<prec>f")]. *)
Definition fixed (prec : nat) (q : Q) : string :=
  let scaled := round_half_even (q * inject_Z (10 ^ Z.of_nat prec))%Q in
  let digits := pad_zeros (show_Z (Z.abs scaled)) (S prec) in
  let k := (String.length digits - prec)%nat in
  let int_part := String.substring 0 k digits in
  let frac_part := String.substring k prec digits in
  (if (scaled <? 0)%Z then "-" else EmptyString) +:+ int_part +:+
  (match prec with O => EmptyString | _ => "." +:+ frac_part end).

Definition is_digit (c : Ascii.ascii) : bool :=
  let n := Ascii.nat_of_ascii c in (48 <=? n)%nat && (n <=? 57)%nat.

Definition parse_nat (s : string) : option nat :=
  match s with
  | EmptyString => None
  | _ => Z.to_nat <$> parse_Z s
  end.

(** The specs the report uses: [[<][width][.prec f]]. *)
Definition parse_spec (spec : string) : option (nat * option nat) :=
  let s1 := match spec with
            | String c s' => if is_char 60 c then s' else spec
            | EmptyString => spec
            end in
  let '(w, s2) := span is_digit s1 in
  let width := default O (parse_nat w) in
  match s2 with
  | EmptyString => Some (width, None)
  | String c s3 =>
      if is_char 46 c then
        let '(p, s4) := span is_digit s3 in
        match parse_nat p, s4 with
        | Some prec, "f"%string => Some (width, Some prec)
        | _, _ => None
        end
      else None
  end.

(** [str(v)] for the values of a report field. *)
Definition str (v : value) : string :=
  match v with
  | VNone => "None"
  | VBool b => if b then "True" else "False"
  | VInt z => show_Z z
  | VFloat q => show_exact q
  | VStr s => s
  | _ => dumps None 0 v
  end.

Definition format (v : value) (spec : string) : result string :=
  match parse_spec spec with
  | None => Raise ValueError
  | Some (width, prec) =>
      body ← match v, prec with
             | VStr s, None => Ok s
             | VStr _, Some _ => Raise ValueError
             | (VBool _ | VInt _ | VFloat _), Some p =>
                 q ← as_number v; Ok (fixed p q)
             | (VBool _ | VInt _ | VFloat _), None => Ok (str v)
             | _, _ =>
                 if String.eqb spec EmptyString then Ok (str v)
                 else Raise TypeError
             end;
      Ok (ljust body width)
  end.

(** A row of [csv.writer]: the fields as [str] gives them ([None] as
    the empty field), joined by commas, ended by CR LF. *)
Definition writerow (row : list value) : string :=
  String.concat ","
    (map (λ v, match v with VNone => EmptyString | _ => str v end) row)
  +:+ String (Ascii.ascii_of_nat 13) nl.

#[export] Instance model_pylib : PyLib := {
  json_loads := loads;
  json_dumps := λ indent v, dumps indent 0 v;
  py_format := format;
  csv_writerow := writerow;
}.

End PyModel.

(* ===================================================================== *)
(** ** Reading a snapshot *)
(* ===================================================================== *)

(** The vocabulary the statements below use to speak about a report
    snapshot and about runs of the profiler. *)

Definition field (k : string) (v : value) : option value :=
  match v with
  | VDict d => assoc k d
  | _ => None
  end.

Definition keys (v : value) : list string :=
  match v with
  | VDict d => d.*1
  | _ => []
  end.

(** A numeric field; 0 when the field is missing or not a number. *)
Definition num_field (k : string) (v : value) : Q :=
  match field k v with
  | Some x => match as_number x with Ok q => q | Raise _ => 0%Q end
  | None => 0%Q
  end.

(** The operations map of a snapshot, in its order. *)
Definition operations_of (report : value) : list (string * value) :=
  match field "operations" report with
  | Some (VDict d) => d
  | _ => []
  end.

(** [Σ total_time] over the records of a snapshot. *)
Definition total_of (report : value) : Q :=
  sumQ (map (λ e, num_field "total_time_ms" e.2) (operations_of report)).


Definition is_Ok {A} (r : result A) : Prop := ∃ a, r = Ok a.

(** A record as the extension reports it: its fields are present, the
    numeric ones are numbers. *)
Definition numeric (k : string) (op : value) : Prop :=
  ∃ v q, field k op = Some v ∧ as_number v = Ok q.

(** A timed kernel call: operation name, duration, backend. *)
Definition operation : Type := string * Q * string.

Definition run_operation (p : Profiler) (o : operation) : Profiler :=
  record o.1.1 o.1.2 o.2 p.

Definition run_operations (ops : list operation) (p : Profiler) : Profiler :=
  foldl run_operation p ops.

(** A computation that leaves the context stack as it found it, however
    it ends. *)
Definition balanced {A} (m : M Profiler A) : Prop :=
  ∀ w, context_stack (rt (m w).2) = context_stack (rt w).





(** What the specification says [detect_regressions] reports for one
    operation of the current snapshot: when the baseline has it and
    [current.avg / baseline.avg] exceeds the threshold, an entry whose
    slowdown factor is that ratio. *)
Definition regression_of (base_ops : list (string * value)) (threshold : Q)
    (item : string * value) : option value :=
  base_op ← assoc item.1 base_ops;
  let ratio := (num_field "avg_time_ms" item.2 / num_field "avg_time_ms" base_op)%Q in
  if Qgtb ratio threshold then
    base_time ← field "avg_time_ms" base_op;
    curr_time ← field "avg_time_ms" item.2;
    Some (VDict [("operation", VStr item.1);
                 ("baseline_ms", base_time);
                 ("actual_ms", curr_time);
                 ("slowdown_factor", VFloat ratio);
                 ("causes", VList [VStr "Increased data size";
                                   VStr "Change in algorithm"])])
  else None.

(** The row [export_profile] writes for one record. *)
Definition csv_fields (op : value) : list value :=
  (λ k, default (VInt 0) (field k op)) <$> csv_keys.

Definition is_dict (v : value) : Prop := ∃ d, v = VDict d.

(** The key [profile_report] sorts a row by. *)
Definition sort_key (op : value) : Q :=
  match field "total_time_ms" op with
  | Some v => match as_number v with Ok q => q | Raise _ => 0%Q end
  | None => 0%Q
  end.

(** The order of the sorted (key, row) pairs. *)
Definition by_key_desc (a b : Q * value) : Prop := (b.1 <= a.1)%Q.

Definition descending (ops : list value) : Prop :=
  StronglySorted (λ a b, (sort_key b <= sort_key a)%Q) ops.

(** The text of a file written line by line. *)
Definition lines_text (lines : list string) : string :=
  foldr String.append EmptyString lines.

(** The fields of a recommendation. *)
Definition recommendation_keys : list string :=
  ["priority"; "title"; "description"; "estimated_speedup"; "code_example"].


(* ===================================================================== *)
(** ** Concrete runs *)
(* ===================================================================== *)

Module Examples.
Import PyModel Tensor.

(** Profiling on, three kernel calls. *)
Definition session : Profiler :=
  run_operations [("add", 1 # 2, "CPU"); ("add", 3 # 2, "CPU");
                  ("matmul", 12 # 1, "CPU")]%Q
    (set_enabled true (initial_profiler "s1")).


Definition world (p : Profiler) : World Profiler :=
  {| rt := p; files := ∅; unwritable := ∅ |}.

(** A baseline in which [add] averaged 1.0 ms, and a current session in
    which it averages 3.0 ms. *)
Definition baseline : value :=
  VDict [("operations",
          VDict [("add", VDict [("avg_time_ms", VFloat 1)])])].

Definition slowed : Profiler :=
  run_operations [("add", 3 # 1, "CPU")]%Q
    (set_enabled true (initial_profiler "s2")).

Definition machine : Backend :=
  model_backend {| has_gpu := true; gpu_threshold := 16 |}.

Definition vector (xs : list Q) : pydata := DList (DScalar <$> xs).

End Examples.

(* ===================================================================== *)
(** ** corepy/tensor.py: moving and reducing *)
(* ===================================================================== *)

Module TensorOps.
Import Tensor.

(** The reductions of [_corepy_rust], on the element buffer and the
    count. *)
Class ReductionFfi := {
  tensor_all : list Q → nat → bool;
  tensor_any : list Q → nat → bool;
  tensor_sum_f32 : list Q → nat → Q;
  tensor_sum_i32 : list Q → nat → Q;
  tensor_mean_f32 : list Q → nat → Q;
}.

Definition of_bool (b : bool) : pydata := DScalar (if b then 1 else 0)%Q.


Section WithBackend.
Context `{Backend} (ffi : option Ffi) (rffi : option ReductionFfi).

(** [self.to(device)] *)
Definition to (self : Tensor) (device : string) : result Tensor :=
  Tensor_init (_backing_data self) (_dtype self) None (Some device).

(** The fallback of a reduction when the import of the extension
    fails. *)
Definition reduce_fallback (self : Tensor) (op : string) (dtype : DataType)
  : result Tensor :=
  r ← dispatch_kernel op (backend self) [_backing_data self];
  Tensor_init r dtype (Some (ByMember (backend self))) None.

Definition all (self : Tensor) : result Tensor :=
  match rffi with
  | Some k =>
      '(buffer, count) ← _get_buffer_pointer self "u1";
      Tensor_init (of_bool (tensor_all buffer count)) BOOL
        (Some (ByMember (backend self))) None
  | None => reduce_fallback self "all" BOOL
  end.

Definition any (self : Tensor) : result Tensor :=
  match rffi with
  | Some k =>
      '(buffer, count) ← _get_buffer_pointer self "u1";
      Tensor_init (of_bool (tensor_any buffer count)) BOOL
        (Some (ByMember (backend self))) None
  | None => reduce_fallback self "any" BOOL
  end.

(** [sum] wraps the kernel's result in a list before building the
    tensor. *)
Definition sum (self : Tensor) : result Tensor :=
  match rffi with
  | Some k =>
      r ← match _dtype self with
          | INT32 =>
              '(buffer, count) ← _get_buffer_pointer self "i4";
              Ok (tensor_sum_i32 buffer count)
          | _ =>
              '(buffer, count) ← _get_buffer_pointer self "f4";
              Ok (tensor_sum_f32 buffer count)
          end;
      Tensor_init (DList [DScalar r]) (_dtype self)
        (Some (ByMember (backend self))) None
  | None => reduce_fallback self "sum" (_dtype self)
  end.

Definition mean (self : Tensor) : result Tensor :=
  match rffi with
  | Some k =>
      '(buffer, count) ← _get_buffer_pointer self "f4";
      Tensor_init (DScalar (tensor_mean_f32 buffer count)) FLOAT32
        (Some (ByMember (backend self))) None
  | None => reduce_fallback self "mean" FLOAT32
  end.

End WithBackend.

(** A selector that honours every explicit request it accepts. *)
Definition honours_requests `{Backend} : Prop :=
  ∀ kind props b b',
    select_backend kind props device_info (Some b) = Ok b' → b' = b.

(** Reductions in exact arithmetic. *)
Definition model_reductions : ReductionFfi := {|
  tensor_all := λ buffer n, forallb (λ x, negb (Qeq_bool x 0)) (take n buffer);
  tensor_any := λ buffer n, existsb (λ x, negb (Qeq_bool x 0)) (take n buffer);
  tensor_sum_f32 := λ buffer n, foldr Qplus 0%Q (take n buffer);
  tensor_sum_i32 := λ buffer n, foldr Qplus 0%Q (take n buffer);
  tensor_mean_f32 := λ buffer n,
    (foldr Qplus 0%Q (take n buffer) / inject_Z (Z.of_nat n))%Q;
|}.




End TensorOps.

(* ===================================================================== *)
(** ** corepy/backend/__init__.py: the dispatch policy *)
(* ===================================================================== *)

Module Policy.

Inductive BackendPolicy := DEFAULT | OPENBLAS | BLAS | CUDA.

(** [int(policy)] *)
Definition to_int (p : BackendPolicy) : Z :=
  match p with
  | DEFAULT => 0
  | OPENBLAS => 1
  | BLAS => 2
  | CUDA => 3
  end.

(** [BackendPolicy(n)]: a value that is no member's raises
    [ValueError]. *)
Definition of_int (n : Z) : result BackendPolicy :=
  match n with
  | 0%Z => Ok DEFAULT
  | 1%Z => Ok OPENBLAS
  | 2%Z => Ok BLAS
  | 3%Z => Ok CUDA
  | _ => Raise ValueError
  end.

(** The policy cell of [_corepy_rust] and its two accessors. *)
Class PolicyStore (S : Type) := {
  rust_set_backend_policy : Z → S → S;
  rust_get_backend_policy : S → Z;
}.

(** The functions import the extension when called: without it the
    import raises. *)
Definition set_backend_policy {S} (ext : option (PolicyStore S))
    (policy : BackendPolicy) (s : S) : result S :=
  match ext with
  | Some _ => Ok (rust_set_backend_policy (to_int policy) s)
  | None => Raise ImportError
  end.

Definition get_backend_policy {S} (ext : option (PolicyStore S)) (s : S)
  : result BackendPolicy :=
  match ext with
  | Some _ => of_int (rust_get_backend_policy s)
  | None => Raise ImportError
  end.

(** A one-cell store. *)
Definition cell : PolicyStore Z := {|
  rust_set_backend_policy := λ n _, n;
  rust_get_backend_policy := λ n, n;
|}.

End Policy.

(* ===================================================================== *)
(** ** corepy/profiler/core.py: compute_stats *)
(* ===================================================================== *)

(** The object [compute_stats] is given, by what its methods return;
    [std] may be absent ([hasattr(data, 'std')]). *)
Record stats_source := {
  call_mean : result value;
  call_std : option (result value);
  call_sum : result value;
}.

(** [k in metrics] on a list of strings. *)
Definition requested (k : string) (metrics : list string) : bool :=
  existsb (String.eqb k) metrics.

(** The result dict, in insertion order. *)
Definition compute_stats (data : stats_source) (metrics : list string)
  : result (list (string * value)) :=
  r1 ← (if requested "mean" metrics
        then m ← call_mean data; Ok [("mean", m)] else Ok []);
  r2 ← (if requested "std" metrics
        then match call_std data with
             | Some call => v ← call; Ok [("std", v)]
             | None => Ok [("std", VFloat 0)]
             end
        else Ok []);
  r3 ← (if requested "sum" metrics
        then v ← call_sum data; Ok [("sum", v)] else Ok []);
  Ok (r1 ++ r2 ++ r3).

(* ===================================================================== *)
(** ** More vocabulary *)
(* ===================================================================== *)

Definition is_critical (b : value) : bool :=
  match field "severity" b with
  | Some (VStr s) => String.eqb s "CRITICAL"
  | _ => false
  end.

(** The number a reported entry holds in a field. *)
Definition reported (k : string) (entry : value) : Q := num_field k entry.

(* ===================================================================== *)
(** ** Binary tensor operations and the backend check *)
(* ===================================================================== *)

Section TensorFacts.
Import Tensor.
Context `{Backend} (ffi : option Ffi).

(** The four element-wise operators go through [_binary_op], which
    rejects operands on different backends before anything else. *)
Lemma binary_op_backend_mismatch (self other : Tensor) (op : string) :
  backend other ≠ backend self →
  _binary_op ffi self op (ATensor other) = Raise BackendError.
Proof.
  intros Hne. unfold _binary_op. simpl.
  rewrite bool_decide_eq_true_2 by exact Hne. reflexivity.
Qed.

(** X4: each of the four element-wise operators raises [BackendError]
    when the right operand is a tensor on another backend than the left
    one, before any buffer is read or any kernel is called. *)
Lemma operators_backend_mismatch (self other : Tensor) :
  backend other ≠ backend self →
  __add__ ffi self (ATensor other) = Raise BackendError ∧
  __sub__ ffi self (ATensor other) = Raise BackendError ∧
  __mul__ ffi self (ATensor other) = Raise BackendError ∧
  __truediv__ ffi self (ATensor other) = Raise BackendError.
Proof.
  intros Hne. unfold __add__, __sub__, __mul__, __truediv__.
  repeat split; apply binary_op_backend_mismatch; exact Hne.
Qed.

(** [matmul] never compares the backends: on a CPU tensor with the
    extension loaded, the outcome does not depend on where the other
    operand lives. *)
Lemma matmul_ignores_other_backend (k : Ffi) (self other : Tensor)
    (b : BackendType) :
  backend self = CPU →
  length (_shape self) ≤ 2 → length (_shape self) = length (_shape other) →
  _shape self ≠ [] →
  matmul (Some k) self (ATensor other) =
  matmul (Some k) self
    (ATensor {| _dtype := _dtype other; _shape := _shape other;
                _element_count := _element_count other;
                _backing_data := _backing_data other;
                _backend_type := b; _device := _device other |}).
Proof.
  intros Hcpu Hlen Heq Hne. unfold matmul.
  rewrite bool_decide_eq_true_2 by exact Hcpu.
  unfold matmul_fast_path. simpl.
  destruct (_shape self) as [|m [|k1 [|? ?]]] eqn:Hs; try done;
    destruct (_shape other) as [|k2 [|n [|? ?]]] eqn:Ho; simpl in *;
    try done; try lia.
Qed.

End TensorFacts.

(** C1, the code at the failing input: a CPU vector times a GPU vector.
    [+] on the two operands raises [BackendError]; [matmul] on the same
    operands returns the dot product as a CPU tensor. *)
Theorem matmul_accepts_backend_mismatch :
  let _ := Examples.machine in
  ∃ a b r,
    Tensor.Tensor_init (Examples.vector [1; 2]%Q) Tensor.FLOAT32
      (Some (Tensor.ByName "cpu")) None = Ok a ∧
    Tensor.Tensor_init (Examples.vector [3; 4]%Q) Tensor.FLOAT32
      (Some (Tensor.ByName "gpu")) None = Ok b ∧
    Tensor.backend a ≠ Tensor.backend b ∧
    Tensor.__add__ (Some Tensor.model_ffi) a (Tensor.ATensor b) = Raise BackendError ∧
    Tensor.matmul (Some Tensor.model_ffi) a (Tensor.ATensor b) = Ok r ∧
    Tensor._backing_data r = Tensor.DList [Tensor.DScalar 11].
Proof.
  simpl. do 3 eexists.
  split; [reflexivity|]. split; [reflexivity|].
  split; [discriminate|]. split; [reflexivity|].
  split; reflexivity.
Qed.

(* ===================================================================== *)
(** ** The profiler while disabled *)
(* ===================================================================== *)

Lemma record_disabled (op_name : string) (d : Q) (b : string) (p : Profiler) :
  enabled p = false → record op_name d b p = p.
Proof. intros Hoff. unfold record. rewrite Hoff. reflexivity. Qed.

Lemma run_operations_disabled (ops : list operation) (p : Profiler) :
  enabled p = false → run_operations ops p = p.
Proof.
  intros Hoff. unfold run_operations.
  induction ops as [|o ops IH]; simpl; [reflexivity|].
  unfold run_operation at 2. rewrite record_disabled by exact Hoff. exact IH.
Qed.

Lemma initial_profiler_disabled (sid : string) :
  enabled (initial_profiler sid) = false.
Proof. reflexivity. Qed.

Lemma disable_profiling_disabled `{PyLib} (p : Profiler) :
  enabled (_disable_profiling p) = false.
Proof. reflexivity. Qed.

(** C2: while profiling is disabled, running any sequence of operations
    leaves the profiler, and so the count of every record of the
    aggregate table, exactly as it was.  The initial state and every
    state reached by [disable_profiling] are disabled. *)
Theorem disabled_profiler_counts_unchanged `{PyLib}
    (ops : list operation) (p : Profiler) :
  enabled p = false →
  run_operations ops p = p ∧
  (∀ op_name, count <$> table (run_operations ops p) !! op_name
              = count <$> table p !! op_name) ∧
  (∀ sid, run_operations ops (initial_profiler sid) = initial_profiler sid) ∧
  (∀ q, run_operations ops (_disable_profiling q) = _disable_profiling q).
Proof.
  intros Hoff. split; [|split; [|split]].
  - apply run_operations_disabled, Hoff.
  - intros op_name. rewrite run_operations_disabled by exact Hoff. reflexivity.
  - intros sid. apply run_operations_disabled, initial_profiler_disabled.
  - intros q. apply run_operations_disabled. reflexivity.
Qed.

Lemma disabled_profiler_counts_unchanged_witness :
  let p := set_enabled false Examples.session in
  let ops := [("add", 7 # 1, "CPU"); ("mul", 1 # 3, "GPU")]%Q in
  enabled p = false ∧
  count <$> table (run_operations ops p) !! "add" = Some 2%N ∧
  table (run_operations ops p) !! "mul" = None.
Proof.
  intros p ops.
  destruct (@disabled_profiler_counts_unchanged PyModel.model_pylib ops p eq_refl)
    as (Heq & _).
  split; [reflexivity|]. rewrite Heq. split; vm_compute; reflexivity.
Defined.

(* ===================================================================== *)
(** ** Context scopes *)
(* ===================================================================== *)

Section Scopes.
Context `{PyLib}.

(** The world after scope entry and after scope exit. *)
Lemma enter_pushes (c : ProfileContext) (w : World Profiler) :
  ProfileContext_enter c w =
  (Ok (), {| rt := push_context (name c) (rt w); files := files w;
             unwritable := unwritable w |}).
Proof. reflexivity. Qed.

Lemma exit_pops (c : ProfileContext) (w : World Profiler) :
  ProfileContext_exit c w =
  (Ok (), {| rt := pop_context (rt w); files := files w;
             unwritable := unwritable w |}).
Proof. reflexivity. Qed.

(** [with c: body] unfolded: push, run the body, pop, hand on the
    body's outcome. *)
Lemma with_context_unfold {A} (c : ProfileContext) (body : M Profiler A)
    (w : World Profiler) :
  with_context c body w =
  ((body (ProfileContext_enter c w).2).1,
   (ProfileContext_exit c (body (ProfileContext_enter c w).2).2).2).
Proof.
  unfold with_context, ProfileContext_enter, ProfileContext_exit, update.
  simpl. destruct (body _) as [r w2]. reflexivity.
Qed.

(** An exception of the body leaves the scope after the pop. *)
Lemma with_context_exception {A} (c : ProfileContext) (body : M Profiler A)
    (w w2 : World Profiler) (e : exn) :
  body (ProfileContext_enter c w).2 = (Raise e, w2) →
  with_context c body w = (Raise e, (ProfileContext_exit c w2).2).
Proof. intros Hb. rewrite with_context_unfold, Hb. reflexivity. Qed.

(** *** Balanced computations *)

Lemma balanced_ret {A} (a : A) : balanced (mret a : M Profiler A).
Proof. intros w. reflexivity. Qed.


Lemma balanced_observe {A} (f : Profiler → result A) : balanced (observe f).
Proof. intros w. reflexivity. Qed.




Lemma balanced_enable : balanced enable_profiling.
Proof. intros w. reflexivity. Qed.

Lemma balanced_disable : balanced disable_profiling.
Proof. intros w. reflexivity. Qed.

Lemma balanced_clear : balanced clear_profile.
Proof. intros w. reflexivity. Qed.

Lemma balanced_with_context {A} (c : ProfileContext) (body : M Profiler A) :
  balanced body → balanced (with_context c body).
Proof.
  intros Hb w. rewrite with_context_unfold, enter_pushes, exit_pops. simpl.
  rewrite Hb. reflexivity.
Qed.

Lemma balanced_profile_operation {A B} (func_name : string)
    (func : A → M Profiler B) (args : A) :
  balanced (func args) → balanced (profile_operation func_name func args).
Proof. apply balanced_with_context. Qed.

(** *** Tags *)




End Scopes.


(* ===================================================================== *)
(** ** The snapshot of the extension *)
(* ===================================================================== *)


Lemma Qgtb_true (a b : Q) : Qgtb a b = true ↔ (b < a)%Q.
Proof.
  unfold Qgtb. rewrite Qgt_alt.
  destruct (a ?= b)%Q; split; congruence.
Qed.

Lemma Qgtb_false (a b : Q) : Qgtb a b = false ↔ (a <= b)%Q.
Proof.
  unfold Qgtb. rewrite Qle_alt.
  destruct (a ?= b)%Q; split; congruence.
Qed.

Lemma operations_of_get_report (ctx : option string) (p : Profiler) :
  operations_of (get_report ctx p) =
  map (record_json (grand_total (selected ctx p))) (selected ctx p).
Proof. reflexivity. Qed.









(* ===================================================================== *)
(** ** Bottleneck detection *)
(* ===================================================================== *)

Lemma field_get_item (k : string) (op v : value) :
  field k op = Some v → get_item op k = Ok v.
Proof. destruct op; simpl; try discriminate. intros ->. reflexivity. Qed.

Lemma field_dict_get (k : string) (op v default : value) :
  field k op = Some v → dict_get op k default = Ok v.
Proof. destruct op; simpl; try discriminate. intros ->. reflexivity. Qed.

Lemma numeric_num_field (k : string) (op v : value) (q : Q) :
  field k op = Some v → as_number v = Ok q → num_field k op = q.
Proof. intros Hf Hn. unfold num_field. rewrite Hf, Hn. reflexivity. Qed.

Lemma for_each_cons {A B} (body : A → result (list B)) (x : A) (xs : list A)
    (ys zs : list B) :
  body x = Ok ys → for_each body xs = Ok zs →
  for_each body (x :: xs) = Ok (ys ++ zs).
Proof. intros Hx Hxs. simpl. rewrite Hx. simpl. rewrite Hxs. reflexivity. Qed.

Section Bottlenecks.
Context `{PyLib} {S : Type} `{!CorepyRust S}.





(** A field on the fraction scale would never reach the default
    threshold: the code reads [percent_total] in percent. *)
Lemma fraction_never_reaches_default_threshold (op pt : value) (p : Q) :
  field "percent_total" op = Some pt → as_number pt = Ok p → (p <= 1)%Q →
  bottleneck_entry default_bottleneck_threshold op = Ok [].
Proof.
  intros Hpt Hp Hle. unfold bottleneck_entry.
  rewrite (field_dict_get _ _ _ _ Hpt). simpl. rewrite Hp. simpl.
  assert (Hoff : Qgtb (p / 100) default_bottleneck_threshold = false).
  { apply Qgtb_false. unfold default_bottleneck_threshold.
    apply Qle_trans with (1 / 100)%Q; [|discriminate].
    unfold Qdiv. apply Qmult_le_compat_r; [exact Hle|discriminate]. }
  rewrite Hoff. reflexivity.
Qed.

End Bottlenecks.



Lemma model_format_float (q : Q) (spec : string) (width prec : nat) :
  PyModel.parse_spec spec = Some (width, Some prec) →
  is_Ok (PyModel.format (VFloat q) spec).
Proof. intros Hspec. unfold PyModel.format. rewrite Hspec. eexists. reflexivity. Qed.


(* ===================================================================== *)
(** ** Regression detection *)
(* ===================================================================== *)

Lemma assoc_elem_of (k : string) (d : list (string * value)) (v : value) :
  assoc k d = Some v → (k, v) ∈ d.
Proof.
  induction d as [|[k' v'] d IH]; simpl; [discriminate|].
  destruct (String.eqb k' k) eqn:Hk.
  - apply String.eqb_eq in Hk as ->. intros [= ->]. apply list_elem_of_here.
  - intros Hd. apply list_elem_of_further, IH, Hd.
Qed.



Section Regressions.
Context `{PyLib} {S : Type} `{!CorepyRust S}.

(** What the code does for one operation of the current snapshot, the
    guard on the baseline time included. *)
Lemma regression_entry_guarded (baseline : value) (threshold : Q)
    (base_ops : list (string * value)) (item : string * value) :
  field "operations" baseline = Some (VDict base_ops) →
  numeric "avg_time_ms" item.2 →
  Forall (λ e, numeric "avg_time_ms" e.2) base_ops →
  regression_entry baseline threshold item =
  Ok (option_list
        (base_op ← assoc item.1 base_ops;
         if Qgtb (num_field "avg_time_ms" base_op) 0
         then regression_of base_ops threshold item else None)).
Proof.
  intros Hbase (ct & c & Hct & Hc) Hnum. destruct item as [op_name curr_op].
  unfold regression_entry, regression_of. simpl in *.
  rewrite (field_dict_get _ _ _ _ Hbase). simpl.
  destruct (assoc op_name base_ops) as [base_op|] eqn:Hassoc; simpl.
  - rewrite (field_get_item _ _ _ Hbase). simpl. rewrite Hassoc. simpl.
    rewrite Forall_forall in Hnum.
    destruct (Hnum (op_name, base_op)) as (bt & b & Hbt & Hb).
    { apply assoc_elem_of, Hassoc. }
    simpl in Hbt. rewrite (field_get_item _ _ _ Hbt). simpl.
    rewrite (field_get_item _ _ _ Hct). simpl. rewrite Hb. simpl.
    rewrite (numeric_num_field _ _ _ _ Hbt Hb).
    rewrite (numeric_num_field _ _ _ _ Hct Hc).
    destruct (Qgtb b 0); [|reflexivity].
    rewrite Hc. simpl. rewrite Hbt, Hct. simpl.
    destruct (Qgtb (c / b) threshold); reflexivity.
  - reflexivity.
Qed.



End Regressions.


(* ===================================================================== *)
(** ** Recommendations *)
(* ===================================================================== *)

Lemma bind_Ok {A B} (m : result A) (k : A → result B) (b : B) :
  m ≫= k = Ok b → ∃ a, m = Ok a ∧ k a = Ok b.
Proof. destruct m as [a|e]; simpl; [|discriminate]. intros Hk. exists a. auto. Qed.

Lemma for_each_elem {A B} (body : A → result (list B)) (xs : list A)
    (l : list B) (r : B) :
  for_each body xs = Ok l → r ∈ l →
  ∃ x ys, x ∈ xs ∧ body x = Ok ys ∧ r ∈ ys.
Proof.
  revert l. induction xs as [|x xs IH]; simpl; intros l Hrun Hr.
  - injection Hrun as <-. inversion Hr.
  - apply bind_Ok in Hrun as (ys & Hx & Hrun).
    apply bind_Ok in Hrun as (zs & Hxs & [= <-]).
    apply elem_of_app in Hr as [Hr|Hr].
    + exists x, ys. split_and!; [apply list_elem_of_here|exact Hx|exact Hr].
    + destruct (IH zs Hxs Hr) as (x' & ys' & Hin & Hb & Hr').
      exists x', ys'. split_and!; [apply list_elem_of_further, Hin|exact Hb|exact Hr'].
Qed.

Lemma for_each_nil {A B} (body : A → result (list B)) (xs : list A) :
  (∀ x, x ∈ xs → body x = Ok []) → for_each body xs = Ok [].
Proof.
  induction xs as [|x xs IH]; intros Hbody; [reflexivity|].
  simpl. rewrite (Hbody x) by apply list_elem_of_here. simpl.
  rewrite IH by (intros y Hy; apply Hbody, list_elem_of_further, Hy).
  reflexivity.
Qed.

Lemma for_each_app {A B} (body : A → result (list B)) (xs ys : list A) :
  for_each body (xs ++ ys) =
  (l1 ← for_each body xs; l2 ← for_each body ys; Ok (l1 ++ l2)).
Proof.
  induction xs as [|x xs IH]; simpl.
  - destruct (for_each body ys); reflexivity.
  - destruct (body x) as [l|e]; simpl; [|reflexivity].
    rewrite IH. destruct (for_each body xs) as [l1|e]; simpl; [|reflexivity].
    destruct (for_each body ys) as [l2|e]; simpl; [|reflexivity].
    rewrite app_assoc. reflexivity.
Qed.

Section Recommendations.
Context `{PyLib} {S : Type} `{!CorepyRust S}.

Lemma recommendation_entry_keys (item : string * value) (ys : list value)
    (r : value) :
  recommendation_entry item = Ok ys → r ∈ ys → keys r = recommendation_keys.
Proof.
  destruct item as [op_name op_data]. unfold recommendation_entry.
  destruct (String.eqb op_name "matmul"); [|intros [= <-] Hr; inversion Hr].
  intros (backend & _ & Hrun)%bind_Ok.
  destruct (is_str backend "CPU"); [|injection Hrun as <-; intros Hr; inversion Hr].
  apply bind_Ok in Hrun as (avg & _ & Hrun).
  apply bind_Ok in Hrun as (a & _ & Hrun).
  destruct (Qgtb a 10); [|injection Hrun as <-; intros Hr; inversion Hr].
  apply bind_Ok in Hrun as (avg' & _ & Hrun).
  apply bind_Ok in Hrun as (shown & _ & [= <-]).
  intros ->%list_elem_of_singleton. reflexivity.
Qed.

Lemma recommendation_entry_other (op_name : string) (op_data : value) :
  op_name ≠ "matmul" → recommendation_entry (op_name, op_data) = Ok [].
Proof.
  intros Hne. unfold recommendation_entry.
  destruct (String.eqb op_name "matmul") eqn:Heq; [|reflexivity].
  apply String.eqb_eq in Heq. contradiction.
Qed.

Lemma recommendation_entry_matmul (op_data avg : value) (a : Q) :
  field "primary_backend" op_data = Some (VStr "CPU") →
  field "avg_time_ms" op_data = Some avg → as_number avg = Ok a → (10 < a)%Q →
  is_Ok (py_format avg ".1f") →
  ∃ r, recommendation_entry ("matmul", op_data) = Ok [r].
Proof.
  intros Hbackend Havg Ha Hslow [shown Hshown]. unfold recommendation_entry.
  simpl. rewrite (field_get_item _ _ _ Hbackend). simpl.
  rewrite (field_get_item _ _ _ Havg). simpl. rewrite Ha. simpl.
  apply Qgtb_true in Hslow. rewrite Hslow, Hshown. simpl.
  eexists. reflexivity.
Qed.

(** C7, as the code has it: every element of the sequence returned by
    [get_recommendations] is a record with exactly the fields priority,
    title, description, estimated_speedup and code_example; when the
    snapshot has a matmul record with primary backend CPU and an average
    time above 10 ms, exactly one such record is returned. *)
Theorem recommendations_fields (s : S) (report : value)
    (items : list (string * value)) :
  profile_report None "dict" s = Ok report →
  field "operations" report = Some (VDict items) →
  NoDup items.*1 →
  (∀ l r, get_recommendations s = Ok l → r ∈ l →
          keys r = recommendation_keys) ∧
  (∀ op_data avg a,
     ("matmul", op_data) ∈ items →
     field "primary_backend" op_data = Some (VStr "CPU") →
     field "avg_time_ms" op_data = Some avg → as_number avg = Ok a →
     (10 < a)%Q → is_Ok (py_format avg ".1f") →
     ∃ r, get_recommendations s = Ok [r] ∧ keys r = recommendation_keys).
Proof.
  intros Hreport Hitems Hnodup.
  assert (Hrun : get_recommendations s = for_each recommendation_entry items).
  { unfold get_recommendations. rewrite Hreport. simpl.
    rewrite (field_dict_get _ _ _ _ Hitems). reflexivity. }
  assert (Hkeys : ∀ l r, get_recommendations s = Ok l → r ∈ l →
                         keys r = recommendation_keys).
  { intros l r Hl Hr. rewrite Hrun in Hl.
    destruct (for_each_elem _ _ _ _ Hl Hr) as (item & ys & _ & Hitem & Hin).
    exact (recommendation_entry_keys item ys r Hitem Hin). }
  split; [exact Hkeys|].
  intros op_data avg a Hin Hbackend Havg Ha Hslow Hfmt.
  destruct (recommendation_entry_matmul _ _ _ Hbackend Havg Ha Hslow Hfmt)
    as [r Hr].
  exists r.
  assert (Hone : get_recommendations s = Ok [r]).
  { rewrite Hrun.
    apply list_elem_of_split in Hin as (before & after & ->).
    rewrite fmap_app, fmap_cons in Hnodup. simpl in Hnodup.
    apply NoDup_app in Hnodup as (_ & Hbefore & Hafter).
    apply NoDup_cons in Hafter as [Hafter _].
    rewrite for_each_app.
    rewrite (for_each_nil _ before).
    - rewrite (for_each_cons _ _ after [r] [] Hr); [reflexivity|].
      apply for_each_nil. intros [k v] Hk.
      apply recommendation_entry_other. intros ->.
      apply Hafter. apply (list_elem_of_fmap_2 fst _ _ Hk).
    - intros [k v] Hk. apply recommendation_entry_other. intros ->.
      apply (Hbefore "matmul" (list_elem_of_fmap_2 fst _ _ Hk)).
      apply list_elem_of_here. }
  split; [exact Hone|].
  apply (Hkeys [r] r Hone). apply list_elem_of_here.
Qed.

End Recommendations.

Lemma recommendations_fields_witness :
  let _ := PyModel.model_pylib in
  ∃ r, get_recommendations Examples.session = Ok [r] ∧
       keys r = recommendation_keys.
Proof.
  intros L.
  destruct (recommendations_fields Examples.session
              (get_report None Examples.session)
              (operations_of (get_report None Examples.session)))
    as [_ Hone].
  - vm_compute. reflexivity.
  - reflexivity.
  - apply (bool_decide_unpack _). vm_compute. reflexivity.
  - apply (Hone (default VNone (assoc "matmul" (operations_of (get_report None Examples.session))))
                (VFloat (12 / 1)) (12 / 1)%Q).
    + vm_compute. apply list_elem_of_here.
    + reflexivity.
    + reflexivity.
    + reflexivity.
    + reflexivity.
    + apply (model_format_float _ ".1f" 0 1). reflexivity.
Defined.

(** C7 as stated fails: the record returned for a slow matmul on the CPU
    has no field named [example]. *)
Lemma recommendation_has_no_example_field :
  let _ := PyModel.model_pylib in
  ∃ l, get_recommendations Examples.session = Ok l ∧
       ¬ (∀ r, r ∈ l →
               Forall (λ k, is_Some (field k r))
                 ["priority"; "title"; "description"; "estimated_speedup";
                  "example"]).
Proof.
  intros L.
  exists [VDict [("priority", VStr "HIGH");
                 ("title", VStr "Enable GPU for Matrix Multiplication");
                 ("description", VStr "Matmul is taking 12.0ms on CPU.");
                 ("estimated_speedup", VStr "10x-50x");
                 ("code_example", VStr "x.to('cuda')")]].
  split; [vm_compute; reflexivity|].
  intros Hall. specialize (Hall _ (list_elem_of_here _ _)).
  rewrite !Forall_cons in Hall.
  destruct Hall as (_ & _ & _ & _ & [v Hv] & _). vm_compute in Hv. discriminate Hv.
Qed.

(* ===================================================================== *)
(** ** Export *)
(* ===================================================================== *)

Lemma append_empty_r (s : string) : s +:+ EmptyString = s.
Proof.
  induction s as [|c s IH]; [reflexivity|].
  change (String c (s +:+ EmptyString) = String c s). rewrite IH. reflexivity.
Qed.

Lemma append_assoc (a b c : string) : (a +:+ b) +:+ c = a +:+ (b +:+ c).
Proof.
  induction a as [|x a IH]; [reflexivity|].
  change (String x ((a +:+ b) +:+ c) = String x (a +:+ (b +:+ c))).
  rewrite IH. reflexivity.
Qed.

Lemma set_file_set_file {S} (path a b : string) (w : World S) :
  set_file path a (set_file path b w) = set_file path a w.
Proof. unfold set_file. simpl. rewrite insert_insert_eq. reflexivity. Qed.

Lemma open_w_writable {S} (path : string) (w : World S) :
  path ∉ unwritable w → open_w path w = (Ok (), set_file path EmptyString w).
Proof. intros Hw. unfold open_w. rewrite bool_decide_eq_false_2 by exact Hw. reflexivity. Qed.

Lemma write_after_set {S} (path old text : string) (w : World S) :
  write path text (set_file path old w) = (Ok (), set_file path (old +:+ text) w).
Proof.
  unfold write. simpl. rewrite lookup_insert_eq. simpl.
  rewrite set_file_set_file. reflexivity.
Qed.

Lemma M_bind_Ok {S A B} (m : M S A) (k : A → M S B) (w w' : World S) (a : A) :
  m w = (Ok a, w') → (m ≫= k) w = k a w'.
Proof. intros Hm. unfold mbind, M_bind. rewrite Hm. reflexivity. Qed.

Lemma M_bind_Raise {S A B} (m : M S A) (k : A → M S B) (w w' : World S) (e : exn) :
  m w = (Raise e, w') → (m ≫= k) w = (Raise e, w').
Proof. intros Hm. unfold mbind, M_bind. rewrite Hm. reflexivity. Qed.

Section ExportFacts.
Context `{PyLib} {S : Type} `{!CorepyRust S}.

(** The branch of [export_profile] each format selects. *)
Lemma export_profile_json (filename : string) (context : option string) :
  export_profile filename "json" context =
  (report ← observe (profile_report context "dict");
   _ ← open_w filename;
   write filename (json_dumps (Some 2) report)).
Proof. reflexivity. Qed.

Lemma export_profile_csv (filename : string) (context : option string) :
  export_profile filename "csv" context =
  (report ← observe (profile_report context "dict");
   operations ← observe (λ _, dict_get report "operations" (VDict []));
   ops ← observe (λ _, dict_values operations);
   match ops with
   | [] => mret ()
   | _ =>
       _ ← open_w filename;
       _ ← write filename (csv_writerow (map VStr csv_keys));
       for_eachM (λ op, row ← observe (λ _, csv_row op);
                        write filename (csv_writerow row)) ops
   end).
Proof. reflexivity. Qed.

(** X18: [chrome_tracing] and any format the function does not know write
    nothing. *)
Lemma export_profile_other (filename format : string) (context : option string)
    (w : World S) (report : value) :
  profile_report context "dict" (rt w) = Ok report →
  format ≠ "json" → format ≠ "csv" → format ≠ "flamegraph" →
  export_profile filename format context w = (Ok (), w).
Proof.
  intros Hreport H1 H2 H3. unfold export_profile.
  apply String.eqb_neq in H1, H2, H3. rewrite H1, H2, H3.
  rewrite (M_bind_Ok _ _ w w report); [reflexivity|].
  unfold observe. rewrite Hreport. reflexivity.
Qed.

Lemma csv_row_fields (op : value) : is_dict op → csv_row op = Ok (csv_fields op).
Proof. intros [d ->]. reflexivity. Qed.

(** The row loop appends one line for each record. *)
Lemma csv_rows_written (filename acc : string) (ops : list value) (w : World S) :
  Forall is_dict ops →
  for_eachM (λ op, row ← observe (λ _, csv_row op);
                   write filename (csv_writerow row)) ops
            (set_file filename acc w)
  = (Ok (), set_file filename
              (acc +:+ lines_text ((λ op, csv_writerow (csv_fields op)) <$> ops)) w).
Proof.
  intros Hops. revert acc. induction Hops as [|op ops Hop _ IH]; intros acc.
  - simpl. rewrite append_empty_r. reflexivity.
  - simpl. unfold mbind at 1, M_bind. unfold mbind at 1, M_bind.
    unfold observe at 1. rewrite (csv_row_fields op Hop).
    rewrite write_after_set, IH, append_assoc. reflexivity.
Qed.

(** C8: [export_profile(path, format='csv')] writes the header and then
    exactly one row for each operation, each with the eight columns
    operation, count, total_time_ms, avg_time_ms, min_time_ms,
    max_time_ms, primary_backend, percent_total in that order; when the
    operations map is empty the call leaves the world, the file system
    included, as it was. *)
Theorem export_csv_one_row_per_operation (filename : string)
    (context : option string) (w : World S) (report : value)
    (ops : list (string * value)) :
  profile_report context "dict" (rt w) = Ok report →
  dict_get report "operations" (VDict []) = Ok (VDict ops) →
  Forall is_dict ops.*2 →
  filename ∉ unwritable w →
  csv_keys = ["operation"; "count"; "total_time_ms"; "avg_time_ms";
              "min_time_ms"; "max_time_ms"; "primary_backend"; "percent_total"] ∧
  export_profile filename "csv" context w =
  (Ok (),
   match ops with
   | [] => w
   | _ => set_file filename
            (lines_text (csv_writerow (VStr <$> csv_keys)
                         :: ((λ op, csv_writerow (csv_fields op)) <$> ops.*2))) w
   end) ∧
  length ((λ op, csv_writerow (csv_fields op)) <$> ops.*2) = length ops ∧
  Forall (λ op, length (csv_fields op) = 8%nat) ops.*2.
Proof.
  intros Hreport Hops Hdicts Hwritable. split_and!.
  - reflexivity.
  - rewrite export_profile_csv.
    rewrite (M_bind_Ok _ _ w w report) by (unfold observe; rewrite Hreport; reflexivity).
    rewrite (M_bind_Ok _ _ w w (VDict ops)) by (unfold observe; rewrite Hops; reflexivity).
    rewrite (M_bind_Ok _ _ w w ops.*2) by reflexivity.
    destruct ops as [|o ops]; [reflexivity|].
    rewrite fmap_cons in *.
    rewrite (M_bind_Ok _ _ _ _ () (open_w_writable _ _ Hwritable)).
    rewrite (M_bind_Ok _ _ _ _ () (write_after_set _ _ _ _)).
    rewrite (csv_rows_written _ _ _ _ Hdicts). reflexivity.
  - rewrite !length_fmap. reflexivity.
  - apply Forall_forall. intros op _. reflexivity.
Qed.


(** An unwritable path makes either export fail with the error of
    [open], before anything is written. *)
Lemma export_json_unwritable (filename : string) (context : option string)
    (w : World S) (report : value) :
  profile_report context "dict" (rt w) = Ok report →
  filename ∈ unwritable w →
  export_profile filename "json" context w = (Raise (OSError filename), w).
Proof.
  intros Hreport Hw. rewrite export_profile_json.
  rewrite (M_bind_Ok _ _ w w report) by (unfold observe; rewrite Hreport; reflexivity).
  apply M_bind_Raise. unfold open_w.
  rewrite bool_decide_eq_true_2 by exact Hw. reflexivity.
Qed.

End ExportFacts.

Lemma export_csv_one_row_per_operation_witness :
  let _ := PyModel.model_pylib in
  (∃ text,
     export_profile "profile.csv" "csv" None (Examples.world Examples.session)
     = (Ok (), set_file "profile.csv" text (Examples.world Examples.session))) ∧
  export_profile "profile.csv" "csv" None
    (Examples.world (initial_profiler "s1"))
  = (Ok (), Examples.world (initial_profiler "s1")).
Proof.
  intros L. split.
  - let ops := eval vm_compute in (operations_of (get_report None Examples.session)) in
    destruct (export_csv_one_row_per_operation "profile.csv" None
                (Examples.world Examples.session)
                (get_report None Examples.session) ops)
      as (_ & Hrun & _).
    + vm_compute. reflexivity.
    + vm_compute. reflexivity.
    + cbn [fmap list_fmap snd].
      repeat (apply Forall_cons; split; [eexists; reflexivity|]). constructor.
    + set_solver.
    + cbv iota in Hrun. eexists. exact Hrun.
  - destruct (export_csv_one_row_per_operation "profile.csv" None
                (Examples.world (initial_profiler "s1"))
                (get_report None (initial_profiler "s1")) [])
      as (_ & Hrun & _).
    + vm_compute. reflexivity.
    + vm_compute. reflexivity.
    + constructor.
    + set_solver.
    + exact Hrun.
Defined.


(* ===================================================================== *)
(** ** The text report *)
(* ===================================================================== *)

Lemma result_bind_Ok {A B} (a : A) (k : A → result B) : Ok a ≫= k = k a.
Proof. reflexivity. Qed.

Lemma mapM_Ok {A B} (f : A → result B) (l : list A) (k : list B) :
  Forall2 (λ x y, f x = Ok y) l k → mapM f l = Ok k.
Proof.
  induction 1 as [|x y l k Hx _ IH]; [reflexivity|].
  simpl. rewrite Hx. simpl. rewrite IH. reflexivity.
Qed.

Lemma mapM_is_Ok {A B} (f : A → result B) (l : list A) :
  Forall (λ x, is_Ok (f x)) l → is_Ok (mapM f l).
Proof.
  induction 1 as [|x l [y Hx] _ [k IH]]; [eexists; reflexivity|].
  exists (y :: k). simpl. rewrite Hx. simpl. rewrite IH. reflexivity.
Qed.

(** *** The sort *)

Lemma insert_desc_perm (x : Q * value) (l : list (Q * value)) :
  insert_desc x l ≡ₚ x :: l.
Proof.
  induction l as [|y l IH]; simpl; [reflexivity|].
  destruct (Qgtb y.1 x.1); [|reflexivity].
  rewrite IH. apply Permutation_swap.
Qed.

Lemma sort_desc_perm (l : list (Q * value)) : sort_desc l ≡ₚ l.
Proof.
  induction l as [|x l IH]; simpl; [reflexivity|].
  rewrite insert_desc_perm, IH. reflexivity.
Qed.

Lemma insert_desc_sorted (x : Q * value) (l : list (Q * value)) :
  StronglySorted by_key_desc l → StronglySorted by_key_desc (insert_desc x l).
Proof.
  induction 1 as [|y l Hsorted IH Hy]; simpl.
  - constructor; constructor.
  - destruct (Qgtb y.1 x.1) eqn:Hcmp.
    + apply Qgtb_true in Hcmp. constructor; [exact IH|].
      rewrite insert_desc_perm. constructor; [|exact Hy].
      apply Qlt_le_weak, Hcmp.
    + apply Qgtb_false in Hcmp. constructor.
      * constructor; assumption.
      * constructor; [exact Hcmp|].
        eapply Forall_impl; [exact Hy|].
        intros z Hz. unfold by_key_desc in *.
        apply Qle_trans with y.1; assumption.
Qed.

Lemma sort_desc_sorted (l : list (Q * value)) :
  StronglySorted by_key_desc (sort_desc l).
Proof.
  induction l as [|x l IH]; simpl; [constructor|].
  apply insert_desc_sorted, IH.
Qed.

(** Rows of equal key keep their order: the sort is stable. *)
Lemma insert_desc_stable (q : Q) (x : Q * value) (l : list (Q * value)) :
  List.filter (λ y, Qeq_bool y.1 q) (insert_desc x l)
  = List.filter (λ y, Qeq_bool y.1 q) (x :: l).
Proof.
  induction l as [|y l IH]; [reflexivity|].
  simpl insert_desc. destruct (Qgtb y.1 x.1) eqn:Hcmp; [|reflexivity].
  simpl in *. rewrite IH.
  destruct (Qeq_bool y.1 q) eqn:Hy, (Qeq_bool x.1 q) eqn:Hx; try reflexivity.
  apply Qeq_bool_eq in Hy, Hx. apply Qgtb_true in Hcmp.
  rewrite Hy, Hx in Hcmp. destruct (Qlt_irrefl _ Hcmp).
Qed.

Lemma sort_desc_stable (q : Q) (l : list (Q * value)) :
  List.filter (λ y, Qeq_bool y.1 q) (sort_desc l)
  = List.filter (λ y, Qeq_bool y.1 q) l.
Proof.
  induction l as [|x l IH]; [reflexivity|].
  simpl sort_desc. rewrite insert_desc_stable. simpl. rewrite IH. reflexivity.
Qed.

Lemma descending_of_pairs (l : list (Q * value)) :
  Forall (λ p, p.1 = sort_key p.2) l →
  StronglySorted by_key_desc l → descending l.*2.
Proof.
  intros Hkeys Hsorted. unfold descending.
  induction Hsorted as [|x l _ IH Hx]; [constructor|].
  apply Forall_cons in Hkeys as [Hxk Hl].
  rewrite fmap_cons. constructor; [apply IH, Hl|].
  apply Forall_fmap. rewrite Forall_forall in *. intros y Hy. simpl.
  rewrite <- Hxk, <- (Hl y Hy). apply (Hx y Hy).
Qed.

Lemma sort_key_numeric (op : value) :
  numeric "total_time_ms" op →
  ∃ v, dict_get op "total_time_ms" (VInt 0) = Ok v ∧
       as_number v = Ok (sort_key op).
Proof.
  intros (v & q & Hv & Hq). exists v.
  split; [apply field_dict_get, Hv|].
  unfold sort_key. rewrite Hv, Hq. reflexivity.
Qed.

Lemma sort_by_total_desc_sorted (ops : list value) :
  Forall (numeric "total_time_ms") ops →
  ∃ sorted, sort_by_total_desc ops = Ok sorted ∧
            sorted ≡ₚ ops ∧ descending sorted.
Proof.
  intros Hnum.
  assert (Hkeys : ∃ ks, mapM (λ x, dict_get x "total_time_ms" (VInt 0)) ops = Ok ks
                        ∧ mapM as_number ks = Ok (sort_key <$> ops)).
  { induction Hnum as [|op ops Hop _ (ks & Hks & Hns)].
    - exists []. split; reflexivity.
    - destruct (sort_key_numeric op Hop) as (v & Hv & Hn).
      exists (v :: ks). split; simpl.
      + rewrite Hv. simpl. rewrite Hks. reflexivity.
      + rewrite Hn. simpl. rewrite Hns. reflexivity. }
  destruct Hkeys as (ks & Hks & Hns).
  unfold sort_by_total_desc. rewrite Hks. simpl.
  destruct ops as [|a [|b ops]].
  - exists []. split_and!; [reflexivity|reflexivity|constructor].
  - exists [a]. split_and!; [reflexivity|reflexivity|].
    constructor; constructor.
  - rewrite Hns. simpl mbind. set (l := a :: b :: ops) in *.
    exists (sort_desc (zip (sort_key <$> l) l)).*2. split_and!.
    + reflexivity.
    + rewrite sort_desc_perm. rewrite snd_zip; [reflexivity|].
      rewrite length_fmap. reflexivity.
    + apply descending_of_pairs; [|apply sort_desc_sorted].
      rewrite sort_desc_perm. apply Forall_forall.
      intros [q op] Hin. simpl.
      apply elem_of_lookup_zip_with in Hin as (i & x & y & [= -> ->] & Hx & Hy).
      rewrite list_lookup_fmap, Hy in Hx. injection Hx as <-. reflexivity.
Qed.

Lemma prefix_append (s t : string) : String.prefix s (s +:+ t) = true.
Proof.
  induction s as [|c s IH]; [destruct t; reflexivity|].
  change (String.prefix (String c s) (String c (s +:+ t)) = true).
  simpl. destruct (Ascii.ascii_dec c c); [exact IH|contradiction].
Qed.

Lemma concat_starts_with (sep first second : string) (rest : list string) :
  String.prefix first (String.concat sep (first :: second :: rest)) = true.
Proof.
  change (String.concat sep (first :: second :: rest))
    with (first +:+ (sep +:+ String.concat sep (second :: rest))).
  apply prefix_append.
Qed.

Section TextReport.
Context `{PyLib} {S : Type} `{!CorepyRust S}.

(** Any format other than the two the function tests for takes the text
    branch. *)
Lemma profile_report_text (context : option string) (format : string) (s : S) :
  format ≠ "dict" → format ≠ "json" →
  profile_report context format s =
  (data ← json_loads (_get_profile_report context s); text_report context data).
Proof.
  intros Hdict Hjson. unfold profile_report.
  apply String.eqb_neq in Hdict, Hjson. rewrite Hdict, Hjson. reflexivity.
Qed.

(** C10: for every format other than 'dict' and 'json', 'compact' and
    unknown strings included, [profile_report] does what it does for
    'table', whatever the snapshot; on a snapshot with a total and
    records that have their fields it returns the table text, which
    begins with the banner and lists the rows by descending total
    time. *)
Theorem other_formats_give_the_table (context : option string) (format : string)
    (s : S) (data total : value) (total_s : string)
    (ops : list (string * value)) :
  format ≠ "dict" → format ≠ "json" →
  json_loads (_get_profile_report context s) = Ok data →
  field "total_time_ms" data = Some total →
  py_format total ".2f" = Ok total_s →
  dict_get data "operations" (VDict []) = Ok (VDict ops) →
  Forall (numeric "total_time_ms") ops.*2 →
  Forall (λ op, is_Ok (table_row op)) ops.*2 →
  profile_report context format s = profile_report context "table" s ∧
  ∃ sorted rows text,
    sorted ≡ₚ ops.*2 ∧ descending sorted ∧
    mapM table_row sorted = Ok rows ∧
    text = String.concat nl
             (([banner; "COREPY PROFILE REPORT (Total: " +:+ total_s +:+ "ms)"]
               ++ context_line context
               ++ [banner; table_header; str_repeat "-" 80])
              ++ rows ++ [banner]) ∧
    profile_report context format s = Ok (VStr text) ∧
    String.prefix banner text = true.
Proof.
  intros Hdict Hjson Hdata Htotal Htotal_s Hops Hnum Hrows.
  split.
  { rewrite (profile_report_text _ format) by assumption.
    rewrite (profile_report_text _ "table") by discriminate. reflexivity. }
  destruct (sort_by_total_desc_sorted _ Hnum) as (sorted & Hsort & Hperm & Hdesc).
  assert (Hsorted_rows : Forall (λ op, is_Ok (table_row op)) sorted)
    by (rewrite Hperm; exact Hrows).
  destruct (mapM_is_Ok _ _ Hsorted_rows) as [rows Hmap].
  exists sorted, rows. eexists. split_and!; [exact Hperm|exact Hdesc|exact Hmap|reflexivity| |].
  - rewrite profile_report_text by assumption. rewrite Hdata.
    rewrite result_bind_Ok. unfold text_report.
    rewrite (field_get_item _ _ _ Htotal), result_bind_Ok.
    rewrite Htotal_s, result_bind_Ok, Hops, result_bind_Ok.
    change (dict_values (VDict ops)) with (Ok ops.*2 : result (list value)).
    rewrite result_bind_Ok, Hsort, result_bind_Ok, Hmap. reflexivity.
  - apply concat_starts_with.
Qed.

(** Also without any assumption on the snapshot: the format string
    plays no part beyond the two tests. *)
Lemma profile_report_format_irrelevant (context : option string)
    (format format' : string) (s : S) :
  format ≠ "dict" → format ≠ "json" → format' ≠ "dict" → format' ≠ "json" →
  profile_report context format s = profile_report context format' s.
Proof.
  intros. rewrite !profile_report_text by assumption. reflexivity.
Qed.

End TextReport.

Lemma get_report_total_numeric (ctx : option string) (p : Profiler) :
  Forall (numeric "total_time_ms") (operations_of (get_report ctx p)).*2.
Proof.
  rewrite operations_of_get_report. apply Forall_forall.
  intros op (e & -> & He)%list_elem_of_fmap.
  apply list_elem_of_fmap in He as (x & -> & _).
  do 2 eexists. split; reflexivity.
Qed.

Lemma other_formats_give_the_table_witness :
  let _ := PyModel.model_pylib in
  ∃ text,
    profile_report None "compact" Examples.session = Ok (VStr text) ∧
    profile_report None "compact" Examples.session
    = profile_report None "table" Examples.session ∧
    String.prefix banner text = true.
Proof.
  intros L.
  destruct (other_formats_give_the_table None "compact" Examples.session
              (get_report None Examples.session)
              (VFloat (total_of (get_report None Examples.session)))
              "14.00"
              (operations_of (get_report None Examples.session)))
    as (Hsame & sorted & rows & text & _ & _ & _ & _ & Hrun & Hprefix).
  - discriminate.
  - discriminate.
  - vm_compute. reflexivity.
  - reflexivity.
  - vm_compute. reflexivity.
  - reflexivity.
  - apply get_report_total_numeric.
  - let l := eval vm_compute in (operations_of (get_report None Examples.session)).*2 in
    change (Forall (λ op, is_Ok (table_row op)) l).
    repeat (apply Forall_cons; split; [eexists; vm_compute; reflexivity|]).
    constructor.
  - exists text. split_and!; assumption.
Defined.

(* ===================================================================== *)
(** ** Tensors: construction, buffers, results *)
(* ===================================================================== *)

Lemma list_shape_positive : ∀ d, Forall (λ n, 1 ≤ n) (Tensor.list_shape d).
Proof.
  fix IH 1. intros [x|[|y l]|sh flat]; simpl; constructor.
  - lia.
  - apply IH.
Qed.

Lemma product_positive (dims : list nat) :
  Forall (λ n, 1 ≤ n) dims → 1 ≤ Tensor.product dims.
Proof.
  induction 1 as [|n dims Hn _ IH]; simpl; [lia|]. nia.
Qed.

Lemma requested_member (b : Tensor.BackendType) :
  Tensor.requested_backend (Some (Tensor.ByMember b)) None = Ok (Some b).
Proof. reflexivity. Qed.




Section TensorConstruction.
Import Tensor TensorOps.
Context `{Backend}.

Lemma Tensor_init_inv (data : pydata) (dtype : DataType)
    (b : option backend_arg) (device : option string) (t : Tensor) :
  Tensor_init data dtype b device = Ok t →
  _dtype t = dtype ∧ _device t = device ∧
  _element_count t = product (_shape t) ∧
  (_shape t, _backing_data t) =
  match data with
  | DList _ => (list_shape data, data)
  | DArray sh _ => (sh, data)
  | DScalar _ => ([1], DList [data])
  end ∧
  ∃ requested,
    requested_backend b device = Ok requested ∧
    select_backend COMPUTE_VECTOR
      {| element_count := _element_count t; shape := _shape t; dtype_bytes := 4 |}
      device_info requested = Ok (backend t).
Proof.
  unfold Tensor_init. intros Hinit.
  destruct data as [x|l|sh flat];
    apply bind_Ok in Hinit as (requested & Hreq & Hinit);
    apply bind_Ok in Hinit as (b' & Hsel & [= <-]);
    simpl; split_and!; try reflexivity; exists requested; split; assumption.
Qed.

(** X1: A tensor built from a list or a number has at least one element in
    every dimension and overall, the empty list included: [Tensor([])]
    has shape [()] and element count 1.  The element count is the
    product of the shape. *)
Theorem tensor_element_count (data : pydata) (dtype : DataType)
    (b : option backend_arg) (device : option string) (t : Tensor) :
  Tensor_init data dtype b device = Ok t →
  _element_count t = product (_shape t) ∧
  ((∀ sh flat, data ≠ DArray sh flat) →
   Forall (λ n, 1 ≤ n) (_shape t) ∧ 1 ≤ _element_count t) ∧
  (data = DList [] → _shape t = [] ∧ _element_count t = 1).
Proof.
  intros Hinit.
  destruct (Tensor_init_inv _ _ _ _ _ Hinit) as (_ & _ & Hcount & Hshape & _).
  split; [exact Hcount|]. split.
  - intros Hlist.
    assert (Hpos : Forall (λ n, 1 ≤ n) (_shape t)).
    { destruct data as [x|l|sh flat]; injection Hshape as -> _.
      - repeat constructor.
      - apply (list_shape_positive (DList l)).
      - destruct (Hlist sh flat eq_refl). }
    split; [exact Hpos|]. rewrite Hcount. apply product_positive, Hpos.
  - intros ->. injection Hshape as Hsh _. rewrite Hcount, Hsh. split; reflexivity.
Qed.


(** X3: [to] keeps the data, the dtype, the shape and the element count of
    a tensor that [Tensor(...)] built; only the placement is decided
    anew, from the device string. *)
Theorem to_preserves_contents (data : pydata) (dtype : DataType)
    (b : option backend_arg) (device : option string) (t t' : Tensor)
    (target : string) :
  Tensor_init data dtype b device = Ok t →
  to t target = Ok t' →
  _backing_data t' = _backing_data t ∧ _dtype t' = _dtype t ∧
  _shape t' = _shape t ∧ _element_count t' = _element_count t ∧
  _device t' = Some target.
Proof.
  intros Hinit Hto. unfold to in Hto.
  destruct (Tensor_init_inv _ _ _ _ _ Hinit) as (_ & _ & Hcount & Hshape & _).
  destruct (Tensor_init_inv _ _ _ _ _ Hto) as (Hdt & Hdev & Hcount' & Hshape' & _).
  assert (Hsame : (_shape t', _backing_data t') = (_shape t, _backing_data t)).
  { rewrite Hshape'. destruct data as [x|l|sh flat]; injection Hshape as Hs Hb;
      rewrite Hb, Hs; reflexivity. }
  injection Hsame as Hs Hb.
  split_and!; [exact Hb|exact Hdt|exact Hs| |exact Hdev].
  rewrite Hcount', Hcount, Hs. reflexivity.
Qed.

End TensorConstruction.

Lemma tensor_element_count_witness :
  let _ := Examples.machine in
  ∃ t, Tensor.Tensor_init (Tensor.DList []) Tensor.BOOL None None = Ok t ∧
       Tensor._shape t = [] ∧ Tensor._element_count t = 1.
Proof.
  intros M. eexists. split; [reflexivity|].
  exact (proj2 (proj2 (tensor_element_count (Tensor.DList []) Tensor.BOOL
                         None None _ eq_refl)) eq_refl).
Defined.


Lemma to_preserves_contents_witness :
  let _ := Examples.machine in
  ∃ t t', Tensor.Tensor_init (Examples.vector [1; 2]%Q) Tensor.FLOAT32 None None = Ok t ∧
          TensorOps.to t "cuda:0" = Ok t' ∧
          Tensor._shape t' = Tensor._shape t ∧
          Tensor._backing_data t' = Tensor._backing_data t.
Proof.
  intros M.
  pose (t := {| Tensor._dtype := Tensor.FLOAT32; Tensor._shape := [2];
                Tensor._element_count := 2;
                Tensor._backing_data := Examples.vector [1; 2]%Q;
                Tensor._backend_type := Tensor.CPU; Tensor._device := None |}).
  pose (t' := {| Tensor._dtype := Tensor.FLOAT32; Tensor._shape := [2];
                 Tensor._element_count := 2;
                 Tensor._backing_data := Examples.vector [1; 2]%Q;
                 Tensor._backend_type := Tensor.GPU;
                 Tensor._device := Some "cuda:0" |}).
  exists t, t'.
  assert (Hinit : Tensor.Tensor_init (Examples.vector [1; 2]%Q) Tensor.FLOAT32
                    None None = Ok t) by reflexivity.
  assert (Hto : TensorOps.to t "cuda:0" = Ok t') by reflexivity.
  destruct (to_preserves_contents _ _ _ _ _ _ _ Hinit Hto) as (Hb & _ & Hs & _).
  split_and!; assumption.
Defined.

Lemma bind_pair_Ok {A B C} (m : result (A * B)) (k : A * B → result C) (c : C) :
  m ≫= k = Ok c → ∃ a b, m = Ok (a, b) ∧ k (a, b) = Ok c.
Proof. intros ([a b] & Hm & Hk)%bind_Ok. exists a, b. auto. Qed.

Section TensorResults.
Import Tensor TensorOps.
Context `{Backend}.

Lemma Tensor_init_member (data : pydata) (dtype : DataType) (b : BackendType)
    (r : Tensor) :
  Tensor_init data dtype (Some (ByMember b)) None = Ok r →
  _dtype r = dtype ∧ (honours_requests → backend r = b).
Proof.
  intros Hinit.
  destruct (Tensor_init_inv _ _ _ _ _ Hinit) as (Hdt & _ & _ & _ & req & Hreq & Hsel).
  split; [exact Hdt|]. intros Hhon.
  rewrite requested_member in Hreq. injection Hreq as <-.
  exact (Hhon _ _ _ _ Hsel).
Qed.

Lemma dispatch_fallback_member (self other r : Tensor) (op : string) :
  dispatch_fallback self other op = Ok r →
  _dtype r = _dtype self ∧ (honours_requests → backend r = backend self).
Proof.
  unfold dispatch_fallback. intros (d & _ & Hinit)%bind_Ok.
  exact (Tensor_init_member _ _ _ _ Hinit).
Qed.

(** X5: The result of an element-wise operation or of [matmul] keeps the
    dtype of the left operand, and with a selector that honours explicit
    requests it lives on the left operand's backend. *)
Theorem binary_result_follows_left_operand (ffi : option Ffi) (self : Tensor)
    (op : string) (other : operand) (r : Tensor) :
  _binary_op ffi self op other = Ok r ∨ matmul ffi self other = Ok r →
  _dtype r = _dtype self ∧ (honours_requests → backend r = backend self).
Proof.
  intros [Hop|Hmm].
  - unfold _binary_op in Hop. apply bind_Ok in Hop as (o' & _ & Hop).
    destruct o' as [o|]; [|discriminate].
    destruct (bool_decide (backend o ≠ backend self)); [discriminate|].
    destruct (bool_decide (backend self = CPU));
      [|exact (dispatch_fallback_member _ _ _ _ Hop)].
    unfold binary_fast_path in Hop.
    destruct ffi as [k|]; [|exact (dispatch_fallback_member _ _ _ _ Hop)].
    apply bind_pair_Ok in Hop as (a & ca & _ & Hop).
    apply bind_pair_Ok in Hop as (b & cb & _ & Hop).
    destruct (bool_decide (ca ≠ cb)); [discriminate|].
    exact (Tensor_init_member _ _ _ _ Hop).
  - unfold matmul in Hmm. destruct other as [x|o|]; try discriminate.
    destruct (bool_decide (backend self = CPU));
      [|exact (dispatch_fallback_member _ _ _ _ Hmm)].
    unfold matmul_fast_path in Hmm.
    destruct ffi as [k|]; [|exact (dispatch_fallback_member _ _ _ _ Hmm)].
    destruct (_shape self) as [|m [|k1 [|e1 l1]]];
      destruct (_shape o) as [|k2 [|n [|e2 l2]]];
      try exact (dispatch_fallback_member _ _ _ _ Hmm).
    + apply bind_pair_Ok in Hmm as (a & ca & _ & Hmm).
      apply bind_pair_Ok in Hmm as (b & cb & _ & Hmm).
      destruct (bool_decide (ca ≠ cb)); [discriminate|].
      exact (Tensor_init_member _ _ _ _ Hmm).
    + destruct (bool_decide (k1 ≠ k2)); [discriminate|].
      apply bind_pair_Ok in Hmm as (a & ca & _ & Hmm).
      apply bind_pair_Ok in Hmm as (b & cb & _ & Hmm).
      exact (Tensor_init_member _ _ _ _ Hmm).
Qed.

(** X7: On the CPU with the extension loaded: the product of an [m] by [k]
    and a [k] by [n] tensor is [m] by [n] with [m * n] elements, and
    inner dimensions that differ are a [ValueError]; the product of two
    vectors is a one-element tensor, and vectors of different counts
    are a [ValueError]. *)
Theorem matmul_result_shape (k : Ffi) (self other : Tensor) :
  backend self = CPU →
  match _shape self, _shape other with
  | [_], [_] =>
      (∀ a b ca cb, _get_buffer_pointer self "f4" = Ok (a, ca) →
                    _get_buffer_pointer other "f4" = Ok (b, cb) → ca ≠ cb →
                    matmul (Some k) self (ATensor other) = Raise ValueError) ∧
      (∀ r, matmul (Some k) self (ATensor other) = Ok r →
            _shape r = [1] ∧ _element_count r = 1)
  | [m; k1], [k2; n] =>
      (k1 ≠ k2 → matmul (Some k) self (ATensor other) = Raise ValueError) ∧
      (∀ r, matmul (Some k) self (ATensor other) = Ok r →
            k1 = k2 ∧ _shape r = [m; n] ∧ _element_count r = m * n)
  | _, _ => True
  end.
Proof.
  intros Hcpu. unfold matmul, matmul_fast_path.
  rewrite bool_decide_eq_true_2 by exact Hcpu.
  destruct (_shape self) as [|m [|k1 [|e1 l1]]];
    destruct (_shape other) as [|k2 [|n [|e2 l2]]]; try exact I.
  - split.
    + intros a b ca cb -> -> Hne. simpl.
      rewrite bool_decide_eq_true_2 by exact Hne. reflexivity.
    + intros r Hr.
      apply bind_pair_Ok in Hr as (a & ca & _ & Hr).
      apply bind_pair_Ok in Hr as (b & cb & _ & Hr).
      destruct (bool_decide (ca ≠ cb)); [discriminate|].
      destruct (Tensor_init_inv _ _ _ _ _ Hr) as (_ & _ & Hc & Hs & _).
      injection Hs as Hs _. rewrite Hc, Hs. split; reflexivity.
  - split.
    + intros Hne. rewrite bool_decide_eq_true_2 by exact Hne. reflexivity.
    + intros r Hr. case_bool_decide as Hk; [discriminate|].
      apply bind_pair_Ok in Hr as (a & ca & _ & Hr).
      apply bind_pair_Ok in Hr as (b & cb & _ & Hr).
      destruct (Tensor_init_inv _ _ _ _ _ Hr) as (_ & _ & Hc & Hs & _).
      injection Hs as Hs _. rewrite Hc, Hs. simpl. split_and!; [exact Hk|reflexivity|lia].
Qed.

(** X8: With the extension loaded every reduction returns a one-element
    tensor of shape [(1,)]: [all] and [any] of dtype BOOL, [mean] of
    dtype FLOAT32, [sum] of the dtype of its operand. *)
Theorem reductions_return_one_element (k : ReductionFfi) (self r : Tensor) :
  (all (Some k) self = Ok r → _dtype r = BOOL) ∧
  (any (Some k) self = Ok r → _dtype r = BOOL) ∧
  (sum (Some k) self = Ok r → _dtype r = _dtype self) ∧
  (mean (Some k) self = Ok r → _dtype r = FLOAT32) ∧
  (all (Some k) self = Ok r ∨ any (Some k) self = Ok r ∨
   sum (Some k) self = Ok r ∨ mean (Some k) self = Ok r →
   _shape r = [1] ∧ _element_count r = 1).
Proof.
  assert (Hone : ∀ d dt b,
             (∃ x, d = DScalar x ∨ d = DList [DScalar x]) →
             Tensor_init d dt b None = Ok r →
             _dtype r = dt ∧ _shape r = [1] ∧ _element_count r = 1).
  { intros d dt b [x Hd] Hinit.
    destruct (Tensor_init_inv _ _ _ _ _ Hinit) as (Hdt & _ & Hc & Hs & _).
    assert (Hsh : _shape r = [1])
      by (destruct Hd as [-> | ->]; injection Hs as Hs _; exact Hs).
    rewrite Hc, Hsh. split_and!; [exact Hdt|reflexivity|reflexivity]. }
  assert (Hall : all (Some k) self = Ok r →
                 _dtype r = BOOL ∧ _shape r = [1] ∧ _element_count r = 1).
  { unfold all. intros (buf & c & _ & Hinit)%bind_pair_Ok.
    apply (Hone _ _ _ (ex_intro _ _ (or_introl eq_refl)) Hinit). }
  assert (Hany : any (Some k) self = Ok r →
                 _dtype r = BOOL ∧ _shape r = [1] ∧ _element_count r = 1).
  { unfold any. intros (buf & c & _ & Hinit)%bind_pair_Ok.
    apply (Hone _ _ _ (ex_intro _ _ (or_introl eq_refl)) Hinit). }
  assert (Hsum : sum (Some k) self = Ok r →
                 _dtype r = _dtype self ∧ _shape r = [1] ∧ _element_count r = 1).
  { unfold sum. intros (x & _ & Hinit)%bind_Ok.
    apply (Hone _ _ _ (ex_intro _ x (or_intror eq_refl)) Hinit). }
  assert (Hmean : mean (Some k) self = Ok r →
                  _dtype r = FLOAT32 ∧ _shape r = [1] ∧ _element_count r = 1).
  { unfold mean. intros (buf & c & _ & Hinit)%bind_pair_Ok.
    apply (Hone _ _ _ (ex_intro _ _ (or_introl eq_refl)) Hinit). }
  split_and!.
  - intros Hr. apply (Hall Hr).
  - intros Hr. apply (Hany Hr).
  - intros Hr. apply (Hsum Hr).
  - intros Hr. apply (Hmean Hr).
  - intros [Hr|[Hr|[Hr|Hr]]];
      [apply Hall in Hr|apply Hany in Hr|apply Hsum in Hr|apply Hmean in Hr];
      destruct Hr as (_ & Hs & Hc); split; assumption.
Qed.





End TensorResults.

Lemma machine_honours_requests :
  @TensorOps.honours_requests Examples.machine.
Proof.
  intros kind props b b'. simpl. unfold Tensor.select.
  destruct b; simpl; congruence.
Qed.

Lemma operators_backend_mismatch_witness :
  let _ := Examples.machine in
  let a := {| Tensor._dtype := Tensor.FLOAT32; Tensor._shape := [2];
              Tensor._element_count := 2;
              Tensor._backing_data := Examples.vector [1; 2]%Q;
              Tensor._backend_type := Tensor.CPU; Tensor._device := None |} in
  let b := {| Tensor._dtype := Tensor.FLOAT32; Tensor._shape := [2];
              Tensor._element_count := 2;
              Tensor._backing_data := Examples.vector [3; 4]%Q;
              Tensor._backend_type := Tensor.GPU; Tensor._device := None |} in
  Tensor.backend b ≠ Tensor.backend a ∧
  Tensor.__truediv__ (Some Tensor.model_ffi) a (Tensor.ATensor b) = Raise BackendError.
Proof.
  intros M a b.
  assert (Hne : Tensor.backend b ≠ Tensor.backend a) by discriminate.
  split; [exact Hne|].
  exact (proj2 (proj2 (proj2 (operators_backend_mismatch
                                (Some Tensor.model_ffi) a b Hne)))).
Defined.

Lemma binary_result_follows_left_operand_witness :
  let _ := Examples.machine in
  let a := {| Tensor._dtype := Tensor.FLOAT64; Tensor._shape := [2];
              Tensor._element_count := 2;
              Tensor._backing_data := Examples.vector [1; 2]%Q;
              Tensor._backend_type := Tensor.CPU; Tensor._device := None |} in
  ∃ r, Tensor.__add__ (Some Tensor.model_ffi) a (Tensor.Number 10) = Ok r ∧
       Tensor._dtype r = Tensor.FLOAT64 ∧ Tensor.backend r = Tensor.CPU.
Proof.
  intros M a.
  pose (r := {| Tensor._dtype := Tensor.FLOAT64; Tensor._shape := [2];
                Tensor._element_count := 2;
                Tensor._backing_data := Examples.vector [1 + 10; 2 + 10]%Q;
                Tensor._backend_type := Tensor.CPU; Tensor._device := None |}).
  assert (Hrun : Tensor.__add__ (Some Tensor.model_ffi) a (Tensor.Number 10) = Ok r)
    by reflexivity.
  exists r. split; [exact Hrun|].
  destruct (binary_result_follows_left_operand (Some Tensor.model_ffi) a "add"
              (Tensor.Number 10) r (or_introl Hrun)) as [Hdt Hb].
  split; [exact Hdt|exact (Hb machine_honours_requests)].
Defined.

Lemma matmul_result_shape_witness :
  let _ := Examples.machine in
  let a := {| Tensor._dtype := Tensor.FLOAT32; Tensor._shape := [2; 3];
              Tensor._element_count := 6;
              Tensor._backing_data :=
                Tensor.DList [Examples.vector [1; 2; 3]%Q; Examples.vector [4; 5; 6]%Q];
              Tensor._backend_type := Tensor.CPU; Tensor._device := None |} in
  let b := {| Tensor._dtype := Tensor.FLOAT32; Tensor._shape := [3; 1];
              Tensor._element_count := 3;
              Tensor._backing_data :=
                Tensor.DList [Examples.vector [1]%Q; Examples.vector [0]%Q;
                              Examples.vector [2]%Q];
              Tensor._backend_type := Tensor.CPU; Tensor._device := None |} in
  ∃ r, Tensor.matmul (Some Tensor.model_ffi) a (Tensor.ATensor b) = Ok r ∧
       Tensor._shape r = [2; 1] ∧ Tensor._element_count r = 2.
Proof.
  intros M a b.
  destruct (Tensor.matmul (Some Tensor.model_ffi) a (Tensor.ATensor b))
    as [r|e] eqn:Hrun; [|vm_compute in Hrun; discriminate Hrun].
  exists r. split; [reflexivity|].
  destruct (matmul_result_shape Tensor.model_ffi a b eq_refl) as [_ Hshape].
  destruct (Hshape r Hrun) as (_ & Hs & Hc). split; assumption.
Defined.

Lemma reductions_return_one_element_witness :
  let _ := Examples.machine in
  let a := {| Tensor._dtype := Tensor.INT32; Tensor._shape := [3];
              Tensor._element_count := 3;
              Tensor._backing_data := Examples.vector [1; 2; 3]%Q;
              Tensor._backend_type := Tensor.CPU; Tensor._device := None |} in
  ∃ r, TensorOps.sum (Some TensorOps.model_reductions) a = Ok r ∧
       Tensor._dtype r = Tensor.INT32 ∧ Tensor._shape r = [1].
Proof.
  intros M a.
  destruct (TensorOps.sum (Some TensorOps.model_reductions) a)
    as [r|e] eqn:Hrun; [|vm_compute in Hrun; discriminate Hrun].
  exists r. split; [reflexivity|].
  destruct (reductions_return_one_element TensorOps.model_reductions a r)
    as (_ & _ & Hdt & _ & Hone).
  split; [exact (Hdt Hrun)|].
  exact (proj1 (Hone (or_intror (or_intror (or_introl Hrun))))).
Defined.


(* ===================================================================== *)
(** ** The analysers on edge inputs *)
(* ===================================================================== *)

Lemma sumQ_nonneg (ps : list Q) :
  Forall (λ x, (0 <= x)%Q) ps → (0 <= sumQ ps)%Q.
Proof. induction 1 as [|x ps Hx _ IH]; simpl; [discriminate|lra]. Qed.

Lemma sumQ_bounds_elements (ps : list Q) (p : Q) :
  Forall (λ x, (0 <= x)%Q) ps → p ∈ ps → (p <= sumQ ps)%Q.
Proof.
  induction 1 as [|x ps Hx Hps IH]; [inversion 1|].
  pose proof (sumQ_nonneg ps Hps) as Hsum.
  intros [->|Hin]%elem_of_cons; simpl.
  - lra.
  - specialize (IH Hin). lra.
Qed.

(** Of non-negative numbers that sum to at most 100, at most one is
    above 50. *)
Lemma at_most_one_above_half (ps : list Q) :
  Forall (λ x, (0 <= x)%Q) ps → (sumQ ps <= 100)%Q →
  length (List.filter (λ x, Qgtb x 50) ps) ≤ 1.
Proof.
  induction 1 as [|x ps Hx Hps IH]; intros Hsum; simpl in *; [lia|].
  pose proof (sumQ_nonneg ps Hps) as Hnonneg.
  destruct (Qgtb x 50) eqn:Hbig; simpl.
  - apply Qgtb_true in Hbig.
    rewrite (filter_ext_in _ (λ _, false)), filter_false; [simpl; lia|].
    intros y Hy%list_elem_of_In. apply Qgtb_false.
    pose proof (sumQ_bounds_elements ps y Hps Hy). lra.
  - apply IH. lra.
Qed.

Section EdgeInputs.
Context `{PyLib} {S : Type} `{!CorepyRust S}.

(** X10: On a snapshot without operations the three analysers return the
    empty sequence and raise nothing, whatever the threshold and
    whatever the baseline is, a malformed one included. *)
Theorem analysers_empty_snapshot (s : S) (report baseline : value)
    (threshold : Q) :
  profile_report None "dict" s = Ok report →
  dict_get report "operations" (VDict []) = Ok (VDict []) →
  detect_bottlenecks threshold s = Ok [] ∧
  get_recommendations s = Ok [] ∧
  detect_regressions baseline threshold s = Ok [].
Proof.
  intros Hreport Hops.
  unfold detect_bottlenecks, get_recommendations, detect_regressions.
  rewrite Hreport, !result_bind_Ok, Hops. split_and!; reflexivity.
Qed.

(** X11: The 'json' format returns the text of the extension as it is, and
    that text parses to what the 'dict' format returns; a text that is
    not JSON fails every format with the parse error, 'json' included. *)
Theorem json_format_parses_to_dict_format (context : option string) (s : S) :
  (∀ text, profile_report context "json" s = Ok (VStr text) →
           text = _get_profile_report context s ∧
           profile_report context "dict" s = json_loads text) ∧
  (∀ e format, json_loads (_get_profile_report context s) = Raise e →
               profile_report context format s = Raise e).
Proof.
  split.
  - intros text. unfold profile_report.
    destruct (json_loads (_get_profile_report context s)) as [data|e] eqn:Hload;
      [|discriminate].
    rewrite !result_bind_Ok.
    change (String.eqb "json" "dict") with false.
    change (String.eqb "json" "json") with true.
    change (String.eqb "dict" "dict") with true. cbv iota.
    intros [= <-]. rewrite Hload. split; reflexivity.
  - intros e format Hload. unfold profile_report. rewrite Hload. reflexivity.
Qed.

Lemma bottleneck_entry_monotone (low high : Q) (op : value) (ys : list value) :
  (low <= high)%Q → bottleneck_entry low op = Ok ys →
  ∃ ys', bottleneck_entry high op = Ok ys' ∧ ys' `sublist_of` ys.
Proof.
  intros Hle. unfold bottleneck_entry.
  intros (pt & Hpt & Hrun)%bind_Ok. apply bind_Ok in Hrun as (p & Hp & Hrun).
  rewrite Hpt, result_bind_Ok, Hp, result_bind_Ok.
  destruct (Qgtb (p / 100) high) eqn:Hhigh.
  - apply Qgtb_true in Hhigh.
    assert (Hlow : Qgtb (p / 100) low = true) by (apply Qgtb_true; lra).
    rewrite Hlow in Hrun. exists ys. split; [exact Hrun|reflexivity].
  - exists []. split; [reflexivity|apply sublist_nil_l].
Qed.

(** X12: raising the threshold never adds a bottleneck: what a higher
    threshold reports is a sublist of what a lower one reports, and it
    succeeds whenever the lower one does. *)
Theorem bottlenecks_shrink_with_threshold (low high : Q) (s : S)
    (l : list value) :
  (low <= high)%Q → detect_bottlenecks low s = Ok l →
  ∃ l', detect_bottlenecks high s = Ok l' ∧ l' `sublist_of` l.
Proof.
  intros Hle. unfold detect_bottlenecks.
  intros (report & Hreport & Hrun)%bind_Ok.
  apply bind_Ok in Hrun as (operations & Hoperations & Hrun).
  apply bind_Ok in Hrun as (ops & Hops & Hrun).
  rewrite Hreport, result_bind_Ok, Hoperations, result_bind_Ok, Hops,
    result_bind_Ok.
  clear Hreport Hoperations Hops. revert l Hrun.
  induction ops as [|op ops IH]; intros l Hrun.
  - injection Hrun as <-. exists []. split; reflexivity.
  - simpl in Hrun. apply bind_Ok in Hrun as (ys & Hop & Hrun).
    apply bind_Ok in Hrun as (zs & Hops & [= <-]).
    destruct (bottleneck_entry_monotone _ _ _ _ Hle Hop) as (ys' & Hop' & Hsub).
    destruct (IH zs Hops) as (zs' & Hops' & Hsub').
    exists (ys' ++ zs'). split; [|apply sublist_app; assumption].
    apply for_each_cons; assumption.
Qed.

Lemma bottleneck_entry_critical (threshold : Q) (op : value) (ys : list value) :
  bottleneck_entry threshold op = Ok ys →
  length (List.filter is_critical ys)
  ≤ length (List.filter (λ x, Qgtb x 50) [num_field "percent_total" op]).
Proof.
  unfold bottleneck_entry. intros (pt & Hpt & Hrun)%bind_Ok.
  apply bind_Ok in Hrun as (p & Hp & Hrun).
  destruct (Qgtb (p / 100) threshold); [|injection Hrun as <-; simpl; lia].
  apply bind_Ok in Hrun as (operation & _ & Hrun).
  apply bind_Ok in Hrun as (percent_total & Hfield & Hrun).
  apply bind_Ok in Hrun as (time_ms & _ & Hrun).
  apply bind_Ok in Hrun as (shown & _ & [= <-]).
  assert (Hp' : num_field "percent_total" op = p).
  { destruct op as [| | | | | |d]; try discriminate. simpl in Hpt, Hfield.
    unfold num_field. simpl.
    destruct (assoc "percent_total" d) as [v|]; [|discriminate Hfield].
    simpl in Hpt. injection Hpt as <-. rewrite Hp. reflexivity. }
  rewrite Hp'. simpl. unfold is_critical. simpl.
  destruct (Qgtb (p / 100) (1 # 2)) eqn:Hcrit; simpl; [|lia].
  apply Qgtb_true in Hcrit. unfold Qdiv in Hcrit.
  change (/ 100)%Q with (1 # 100)%Q in Hcrit.
  assert (Hbig : Qgtb p 50 = true) by (apply Qgtb_true; lra).
  rewrite Hbig. simpl. lia.
Qed.

(** X13: when the [percent_total] fields of a snapshot are not negative
    and sum to at most 100, at most one of the bottlenecks reported is
    CRITICAL. *)
Theorem at_most_one_critical (threshold : Q) (s : S) (report : value)
    (ops : list (string * value)) (l : list value) :
  profile_report None "dict" s = Ok report →
  dict_get report "operations" (VDict []) = Ok (VDict ops) →
  Forall (λ op, (0 <= num_field "percent_total" op)%Q) ops.*2 →
  (sumQ (num_field "percent_total" <$> ops.*2) <= 100)%Q →
  detect_bottlenecks threshold s = Ok l →
  length (List.filter is_critical l) ≤ 1.
Proof.
  intros Hreport Hops Hnonneg Hsum. unfold detect_bottlenecks.
  rewrite Hreport, !result_bind_Ok, Hops, result_bind_Ok.
  change (dict_values (VDict ops)) with (Ok ops.*2 : result (list value)).
  rewrite result_bind_Ok. intros Hrun.
  assert (Hcount : length (List.filter is_critical l)
                   ≤ length (List.filter (λ x, Qgtb x 50)
                               (num_field "percent_total" <$> ops.*2))).
  { clear Hnonneg Hsum. revert l Hrun.
    induction (ops.*2) as [|op rest IH]; intros l Hrun.
    - injection Hrun as <-. simpl. lia.
    - simpl in Hrun. apply bind_Ok in Hrun as (ys & Hop & Hrun).
      apply bind_Ok in Hrun as (zs & Hrest & [= <-]).
      rewrite List.filter_app, length_app, fmap_cons.
      pose proof (bottleneck_entry_critical _ _ _ Hop) as Hhead.
      specialize (IH zs Hrest).
      change (num_field "percent_total" op :: (num_field "percent_total" <$> rest))
        with ([num_field "percent_total" op] ++ (num_field "percent_total" <$> rest)).
      rewrite List.filter_app, length_app. lia. }
  etransitivity; [exact Hcount|].
  apply at_most_one_above_half; [|exact Hsum].
  apply Forall_fmap. exact Hnonneg.
Qed.

End EdgeInputs.

(* ===================================================================== *)
(** ** More on regressions *)
(* ===================================================================== *)

Lemma assoc_NoDup (k : string) (v : value) (d : list (string * value)) :
  NoDup d.*1 → (k, v) ∈ d → assoc k d = Some v.
Proof.
  induction d as [|[k' v'] d IH]; [inversion 2|].
  rewrite fmap_cons. intros [Hfresh Hnodup]%NoDup_cons. simpl in Hfresh.
  intros [[= -> ->]|Hin]%elem_of_cons; simpl.
  - rewrite String.eqb_refl. reflexivity.
  - destruct (String.eqb k' k) eqn:Hk; [|exact (IH Hnodup Hin)].
    apply String.eqb_eq in Hk as ->.
    destruct Hfresh. apply (list_elem_of_fmap_2 fst _ _ Hin).
Qed.

Section MoreRegressions.
Context `{PyLib} {S : Type} `{!CorepyRust S}.

(** X15: Every regression reported has a positive baseline time and a
    slowdown factor, the current time over the baseline time, strictly
    above the threshold. *)
Theorem regressions_exceed_threshold (baseline : value) (threshold : Q) (s : S)
    (current : value) (items base_ops : list (string * value))
    (l : list value) :
  profile_report None "dict" s = Ok current →
  field "operations" current = Some (VDict items) →
  field "operations" baseline = Some (VDict base_ops) →
  Forall (λ e, numeric "avg_time_ms" e.2) items →
  Forall (λ e, numeric "avg_time_ms" e.2) base_ops →
  detect_regressions baseline threshold s = Ok l →
  Forall (λ r, (0 < reported "baseline_ms" r)%Q ∧
               (threshold < reported "slowdown_factor" r)%Q ∧
               reported "slowdown_factor" r
               = (reported "actual_ms" r / reported "baseline_ms" r)%Q) l.
Proof.
  intros Hcurrent Hitems Hbase Hcurr_num Hbase_num. unfold detect_regressions.
  rewrite Hcurrent, result_bind_Ok, (field_dict_get _ _ _ _ Hitems), !result_bind_Ok.
  intros Hrun. apply Forall_forall. intros r Hr.
  destruct (for_each_elem _ _ _ _ Hrun Hr) as (item & ys & Hin & Hentry & Hry).
  rewrite Forall_forall in Hcurr_num, Hbase_num.
  rewrite (regression_entry_guarded _ _ _ _ Hbase (Hcurr_num _ Hin)) in Hentry
    by (apply Forall_forall; exact Hbase_num).
  injection Hentry as <-.
  destruct (assoc item.1 base_ops) as [base_op|] eqn:Hassoc; [|inversion Hry].
  simpl in Hry.
  destruct (Hbase_num _ (assoc_elem_of _ _ _ Hassoc)) as (bt & b & Hbt & Hb).
  destruct (Hcurr_num _ Hin) as (ct & c & Hct & Hc). simpl in Hbt, Hct.
  destruct (Qgtb (num_field "avg_time_ms" base_op) 0) eqn:Hguard;
    [|inversion Hry].
  unfold regression_of in Hry. rewrite Hassoc in Hry. simpl in Hry.
  destruct (Qgtb _ threshold) eqn:Hover; [|inversion Hry].
  rewrite Hbt, Hct in Hry. simpl in Hry.
  apply list_elem_of_singleton in Hry as ->.
  apply Qgtb_true in Hguard, Hover.
  rewrite (numeric_num_field _ _ _ _ Hbt Hb) in Hguard, Hover |- *.
  rewrite (numeric_num_field _ _ _ _ Hct Hc) in Hover |- *.
  unfold reported, num_field. simpl. rewrite Hb, Hc.
  split_and!; [exact Hguard|exact Hover|reflexivity].
Qed.

(** X16: A snapshot never regresses against itself: with the current
    snapshot as the baseline and a threshold of at least 1 nothing is
    reported. *)
Theorem no_regression_against_itself (threshold : Q) (s : S) (current : value)
    (items : list (string * value)) :
  profile_report None "dict" s = Ok current →
  field "operations" current = Some (VDict items) →
  NoDup items.*1 →
  Forall (λ e, numeric "avg_time_ms" e.2) items →
  (1 <= threshold)%Q →
  detect_regressions current threshold s = Ok [].
Proof.
  intros Hcurrent Hitems Hnodup Hnum Hthr. unfold detect_regressions.
  rewrite Hcurrent, result_bind_Ok, (field_dict_get _ _ _ _ Hitems), !result_bind_Ok.
  apply for_each_nil. intros item Hin.
  pose proof Hnum as Hall. rewrite Forall_forall in Hall.
  rewrite (regression_entry_guarded _ _ _ _ Hitems (Hall _ Hin) Hnum).
  destruct item as [op_name curr_op]. cbn [fst snd].
  rewrite (assoc_NoDup _ _ _ Hnodup Hin). simpl.
  destruct (Qgtb (num_field "avg_time_ms" curr_op) 0) eqn:Hguard; [|reflexivity].
  apply Qgtb_true in Hguard.
  unfold regression_of. simpl. rewrite (assoc_NoDup _ _ _ Hnodup Hin). simpl.
  assert (Hratio : Qgtb (num_field "avg_time_ms" curr_op
                         / num_field "avg_time_ms" curr_op) threshold = false).
  { apply Qgtb_false. apply Qle_trans with 1%Q; [|exact Hthr].
    apply Qle_shift_div_r; [exact Hguard|]. lra. }
  rewrite Hratio. reflexivity.
Qed.

End MoreRegressions.

(* ===================================================================== *)
(** ** More on export *)
(* ===================================================================== *)

Section MoreExport.
Context `{PyLib} {S : Type} `{!CorepyRust S}.

Lemma export_profile_flamegraph (filename : string) (context : option string) :
  export_profile filename "flamegraph" context =
  (report ← observe (profile_report context "dict");
   speedscope_data ← observe (λ _, _convert_to_speedscope report);
   _ ← open_w filename;
   write filename (json_dumps None speedscope_data)).
Proof. reflexivity. Qed.

Lemma speedscope_loop_total (items : list (string * value)) :
  Forall (λ e, numeric "total_time_ms" e.2) items →
  ∀ acc, is_Ok (speedscope_loop acc items).
Proof.
  induction 1 as [|item items (v & d & Hv & Hd) _ IH]; intros [start events].
  - eexists. reflexivity.
  - simpl. unfold speedscope_step.
    rewrite (field_get_item _ _ _ Hv), result_bind_Ok, Hd, !result_bind_Ok.
    apply IH.
Qed.

(** Whenever the conversion returns, it returns the report it was
    given. *)
Lemma convert_to_speedscope_identity (report r : value) :
  _convert_to_speedscope report = Ok r → r = report.
Proof.
  unfold _convert_to_speedscope. intros (operations & _ & Hrun)%bind_Ok.
  apply bind_Ok in Hrun as (items & _ & Hrun).
  apply bind_Ok in Hrun as (acc & _ & [= <-]). reflexivity.
Qed.

(** X17: The flamegraph export is the plain snapshot: when every record has
    a numeric total time the file holds the compact JSON text of the
    report itself, the events the conversion builds being dropped; when
    the conversion raises, the error is the call's and nothing is
    written. *)
Theorem flamegraph_export_is_the_snapshot (filename : string)
    (context : option string) (w : World S) (report : value)
    (items : list (string * value)) :
  profile_report context "dict" (rt w) = Ok report →
  dict_get report "operations" (VDict []) = Ok (VDict items) →
  filename ∉ unwritable w →
  (Forall (λ e, numeric "total_time_ms" e.2) items →
   export_profile filename "flamegraph" context w
   = (Ok (), set_file filename (json_dumps None report) w)) ∧
  (∀ e, _convert_to_speedscope report = Raise e →
        export_profile filename "flamegraph" context w = (Raise e, w)).
Proof.
  intros Hreport Hitems Hwritable. rewrite export_profile_flamegraph.
  rewrite (M_bind_Ok _ _ w w report) by (unfold observe; rewrite Hreport; reflexivity).
  split.
  - intros Hnum.
    assert (Hconv : _convert_to_speedscope report = Ok report).
    { unfold _convert_to_speedscope. rewrite Hitems, result_bind_Ok.
      change (dict_items (VDict items))
        with (Ok items : result (list (string * value))).
      rewrite result_bind_Ok.
      destruct (speedscope_loop_total items Hnum (0%Q, [])) as [acc Hacc].
      rewrite Hacc. reflexivity. }
    rewrite (M_bind_Ok _ _ w w report) by (unfold observe; rewrite Hconv; reflexivity).
    rewrite (M_bind_Ok _ _ _ _ () (open_w_writable _ _ Hwritable)).
    apply write_after_set.
  - intros e Hconv. apply M_bind_Raise. unfold observe. rewrite Hconv. reflexivity.
Qed.

(** X19: A path that cannot be opened makes the JSON export and a CSV export
    with rows fail with the error of [open], nothing being written; a
    CSV export of an empty snapshot returns before opening the file and
    succeeds. *)
Theorem export_unwritable_path (filename : string) (context : option string)
    (w : World S) (report : value) (ops : list (string * value)) :
  profile_report context "dict" (rt w) = Ok report →
  dict_get report "operations" (VDict []) = Ok (VDict ops) →
  filename ∈ unwritable w →
  export_profile filename "json" context w = (Raise (OSError filename), w) ∧
  (ops ≠ [] →
   export_profile filename "csv" context w = (Raise (OSError filename), w)) ∧
  (ops = [] → export_profile filename "csv" context w = (Ok (), w)).
Proof.
  intros Hreport Hops Hw.
  assert (Hopen : open_w filename w = (Raise (OSError filename), w)).
  { unfold open_w. rewrite bool_decide_eq_true_2 by exact Hw. reflexivity. }
  split_and!.
  - apply (export_json_unwritable _ _ _ report); assumption.
  - intros Hne. rewrite export_profile_csv.
    rewrite (M_bind_Ok _ _ w w report) by (unfold observe; rewrite Hreport; reflexivity).
    rewrite (M_bind_Ok _ _ w w (VDict ops)) by (unfold observe; rewrite Hops; reflexivity).
    rewrite (M_bind_Ok _ _ w w ops.*2) by reflexivity.
    destruct ops as [|o ops]; [contradiction|]. rewrite fmap_cons.
    apply M_bind_Raise, Hopen.
  - intros ->. rewrite export_profile_csv.
    rewrite (M_bind_Ok _ _ w w report) by (unfold observe; rewrite Hreport; reflexivity).
    rewrite (M_bind_Ok _ _ w w (VDict [])) by (unfold observe; rewrite Hops; reflexivity).
    reflexivity.
Qed.

End MoreExport.

(* ===================================================================== *)
(** ** Stability of the row order *)
(* ===================================================================== *)

Lemma sort_by_total_desc_eq (ops : list value) :
  Forall (numeric "total_time_ms") ops →
  sort_by_total_desc ops =
  Ok (match ops with
      | [] | [_] => ops
      | _ => (sort_desc (zip (sort_key <$> ops) ops)).*2
      end).
Proof.
  intros Hnum.
  assert (Hkeys : ∃ ks, mapM (λ x, dict_get x "total_time_ms" (VInt 0)) ops = Ok ks
                        ∧ mapM as_number ks = Ok (sort_key <$> ops)).
  { induction Hnum as [|op ops Hop _ (ks & Hks & Hns)].
    - exists []. split; reflexivity.
    - destruct (sort_key_numeric op Hop) as (v & Hv & Hn).
      exists (v :: ks). split; simpl.
      + rewrite Hv. simpl. rewrite Hks. reflexivity.
      + rewrite Hn. simpl. rewrite Hns. reflexivity. }
  destruct Hkeys as (ks & Hks & Hns).
  unfold sort_by_total_desc. rewrite Hks, result_bind_Ok.
  destruct ops as [|a [|b ops]]; [reflexivity|reflexivity|].
  rewrite Hns. reflexivity.
Qed.

Lemma zip_keys_invariant (ops : list value) :
  Forall (λ p, p.1 = sort_key p.2) (zip (sort_key <$> ops) ops).
Proof.
  induction ops as [|op ops IH]; simpl; constructor; [reflexivity|exact IH].
Qed.

Lemma filter_by_key_of_pairs (q : Q) (l : list (Q * value)) :
  Forall (λ p, p.1 = sort_key p.2) l →
  List.filter (λ op, Qeq_bool (sort_key op) q) l.*2
  = (List.filter (λ y, Qeq_bool y.1 q) l).*2.
Proof.
  induction 1 as [|[k op] l Hk _ IH]; [reflexivity|].
  rewrite fmap_cons. cbn [List.filter fst snd] in *. subst k.
  destruct (Qeq_bool (sort_key op) q); [rewrite fmap_cons|];
    rewrite IH; reflexivity.
Qed.

(** X20: Rows whose totals are equal keep the order they have in the
    snapshot: the descending sort of [profile_report] is stable. *)
Theorem equal_totals_keep_order (ops sorted : list value) (q : Q) :
  Forall (numeric "total_time_ms") ops →
  sort_by_total_desc ops = Ok sorted →
  List.filter (λ op, Qeq_bool (sort_key op) q) sorted
  = List.filter (λ op, Qeq_bool (sort_key op) q) ops.
Proof.
  intros Hnum Hsort. rewrite (sort_by_total_desc_eq ops Hnum) in Hsort.
  injection Hsort as <-.
  destruct ops as [|a [|b ops]]; [reflexivity|reflexivity|].
  set (l := a :: b :: ops) in *.
  rewrite filter_by_key_of_pairs.
  - rewrite sort_desc_stable, <- filter_by_key_of_pairs by apply zip_keys_invariant.
    rewrite snd_zip; [reflexivity|]. rewrite length_fmap. reflexivity.
  - rewrite sort_desc_perm. apply zip_keys_invariant.
Qed.

(* ===================================================================== *)
(** ** The dispatch policy *)
(* ===================================================================== *)

(** X21: [BackendPolicy(int(p))] is [p]; an integer is accepted exactly when
    it is the value of a member, every other one raising [ValueError];
    and over a store that reads back what was written,
    [get_backend_policy] returns the policy [set_backend_policy] set. *)
Theorem policy_round_trip {S} (store : Policy.PolicyStore S) :
  (∀ n s, Policy.rust_get_backend_policy (Policy.rust_set_backend_policy n s) = n) →
  (∀ p, Policy.of_int (Policy.to_int p) = Ok p) ∧
  (∀ n p, Policy.of_int n = Ok p → n = Policy.to_int p) ∧
  (∀ n, (n < 0 ∨ 3 < n)%Z → Policy.of_int n = Raise ValueError) ∧
  (∀ p s s', Policy.set_backend_policy (Some store) p s = Ok s' →
             Policy.get_backend_policy (Some store) s' = Ok p).
Proof.
  intros Hlaw. split_and!.
  - intros []; reflexivity.
  - intros n p Hn. unfold Policy.of_int in Hn.
    destruct n as [|[[|[]|]|[|[]|]|]|]; try discriminate;
      injection Hn as <-; reflexivity.
  - intros n Hn. unfold Policy.of_int.
    destruct n as [|[[|[]|]|[|[]|]|]|]; try reflexivity; lia.
  - intros p s s' [= <-]. simpl. rewrite Hlaw. destruct p; reflexivity.
Qed.

Lemma policy_round_trip_witness :
  ∃ s', Policy.set_backend_policy (Some Policy.cell) Policy.BLAS 0%Z = Ok s' ∧
        Policy.get_backend_policy (Some Policy.cell) s' = Ok Policy.BLAS.
Proof.
  eexists. split; [reflexivity|].
  refine (proj2 (proj2 (proj2 (policy_round_trip Policy.cell _)))
            Policy.BLAS 0%Z _ eq_refl).
  intros n s. reflexivity.
Defined.

(* ===================================================================== *)
(** ** compute_stats *)
(* ===================================================================== *)

(** X22: The result of [compute_stats] has exactly the requested ones of the
    keys mean, std and sum, in that order, whatever else [metrics]
    names and however often; for data without a [std] method a
    requested std is 0.0. *)
Theorem compute_stats_keys (data : stats_source) (metrics : list string)
    (r : list (string * value)) :
  compute_stats data metrics = Ok r →
  r.*1 = List.filter (λ k, requested k metrics) ["mean"; "std"; "sum"] ∧
  (call_std data = None → requested "std" metrics = true →
   assoc "std" r = Some (VFloat 0)).
Proof.
  unfold compute_stats. intros (r1 & H1 & Hrun)%bind_Ok.
  apply bind_Ok in Hrun as (r2 & H2 & Hrun).
  apply bind_Ok in Hrun as (r3 & H3 & [= <-]).
  assert (K1 : r1 = [] ∧ requested "mean" metrics = false
               ∨ ∃ v, r1 = [("mean", v)] ∧ requested "mean" metrics = true).
  { destruct (requested "mean" metrics).
    - apply bind_Ok in H1 as (v & _ & [= <-]). right. eauto.
    - injection H1 as <-. left. auto. }
  assert (K3 : r3 = [] ∧ requested "sum" metrics = false
               ∨ ∃ v, r3 = [("sum", v)] ∧ requested "sum" metrics = true).
  { destruct (requested "sum" metrics).
    - apply bind_Ok in H3 as (v & _ & [= <-]). right. eauto.
    - injection H3 as <-. left. auto. }
  assert (K2 : r2 = [] ∧ requested "std" metrics = false
               ∨ ∃ v, r2 = [("std", v)] ∧ requested "std" metrics = true
                      ∧ (call_std data = None → v = VFloat 0)).
  { destruct (requested "std" metrics).
    - right. destruct (call_std data) as [call|].
      + apply bind_Ok in H2 as (v & _ & [= <-]). exists v. split_and!; [done..|].
        discriminate.
      + injection H2 as <-. exists (VFloat 0). auto.
    - injection H2 as <-. left. auto. }
  destruct K1 as [[-> E1]|(v1 & -> & E1)];
    destruct K2 as [[-> E2]|(v2 & -> & E2 & Hz)];
    destruct K3 as [[-> E3]|(v3 & -> & E3)];
    simpl; rewrite E1, E2, E3; split; try reflexivity;
    intros Hnone; try discriminate; intros _; rewrite (Hz Hnone); reflexivity.
Qed.

Lemma compute_stats_keys_witness :
  let data := {| call_mean := Ok (VFloat 2); call_std := None;
                 call_sum := Ok (VFloat 6) |} in
  ∃ r, compute_stats data ["sum"; "median"; "std"; "sum"] = Ok r ∧
       r.*1 = ["std"; "sum"] ∧ assoc "std" r = Some (VFloat 0).
Proof.
  intros data. eexists. split; [reflexivity|].
  destruct (compute_stats_keys data ["sum"; "median"; "std"; "sum"] _ eq_refl)
    as [Hkeys Hstd].
  split; [exact Hkeys|exact (Hstd eq_refl eq_refl)].
Defined.

(* ===================================================================== *)
(** ** Runs of the edge cases *)
(* ===================================================================== *)

Lemma analysers_empty_snapshot_witness :
  let _ := PyModel.model_pylib in
  detect_bottlenecks 0 () = Ok [] ∧
  get_recommendations () = Ok [] ∧
  detect_regressions VNone 0 () = Ok [].
Proof.
  intros L.
  apply (analysers_empty_snapshot () mock_report VNone 0).
  - vm_compute. reflexivity.
  - reflexivity.
Defined.

Lemma bottlenecks_shrink_with_threshold_witness :
  let _ := PyModel.model_pylib in
  ∃ l l', detect_bottlenecks (1 # 10) Examples.session = Ok l ∧
          detect_bottlenecks (1 # 2) Examples.session = Ok l' ∧
          l' `sublist_of` l.
Proof.
  intros L.
  destruct (detect_bottlenecks (1 # 10) Examples.session) as [l|e] eqn:Hlow;
    [|vm_compute in Hlow; discriminate Hlow].
  destruct (bottlenecks_shrink_with_threshold (1 # 10) (1 # 2)
              Examples.session l ltac:(discriminate) Hlow) as (l' & Hhigh & Hsub).
  exists l, l'. split_and!; [reflexivity|exact Hhigh|exact Hsub].
Defined.

Lemma at_most_one_critical_witness :
  let _ := PyModel.model_pylib in
  ∃ l, detect_bottlenecks 0 Examples.session = Ok l ∧
       length (List.filter is_critical l) ≤ 1.
Proof.
  intros L.
  destruct (detect_bottlenecks 0 Examples.session) as [l|e] eqn:Hrun;
    [|vm_compute in Hrun; discriminate Hrun].
  exists l. split; [reflexivity|].
  let ops := eval vm_compute in (operations_of (get_report None Examples.session)) in
  apply (at_most_one_critical 0 Examples.session
           (get_report None Examples.session) ops l).
  - vm_compute. reflexivity.
  - vm_compute. reflexivity.
  - cbn [fmap list_fmap snd].
    repeat (apply Forall_cons; split; [vm_compute; discriminate|]). constructor.
  - vm_compute. discriminate.
  - exact Hrun.
Defined.

Lemma regressions_exceed_threshold_witness :
  let _ := PyModel.model_pylib in
  ∃ l, detect_regressions Examples.baseline default_regression_threshold
         Examples.slowed = Ok l ∧
       Forall (λ r, (default_regression_threshold
                     < reported "slowdown_factor" r)%Q) l.
Proof.
  intros L.
  destruct (detect_regressions Examples.baseline default_regression_threshold
              Examples.slowed) as [l|e] eqn:Hrun;
    [|vm_compute in Hrun; discriminate Hrun].
  exists l. split; [reflexivity|].
  eapply Forall_impl.
  - let items := eval vm_compute in (operations_of (get_report None Examples.slowed)) in
    apply (regressions_exceed_threshold Examples.baseline
             default_regression_threshold Examples.slowed
             (get_report None Examples.slowed) items
             (operations_of Examples.baseline) l).
    + vm_compute. reflexivity.
    + vm_compute. reflexivity.
    + reflexivity.
    + apply Forall_singleton. do 2 eexists. split; reflexivity.
    + apply Forall_singleton. do 2 eexists. split; reflexivity.
    + exact Hrun.
  - intros r (_ & Hover & _). exact Hover.
Defined.

Lemma no_regression_against_itself_witness :
  let _ := PyModel.model_pylib in
  detect_regressions (get_report None Examples.session) 1 Examples.session = Ok [].
Proof.
  intros L.
  let items := eval vm_compute in (operations_of (get_report None Examples.session)) in
  apply (no_regression_against_itself 1 Examples.session
           (get_report None Examples.session) items).
  - vm_compute. reflexivity.
  - vm_compute. reflexivity.
  - apply (bool_decide_unpack _). vm_compute. reflexivity.
  - repeat (apply Forall_cons; split; [do 2 eexists; split; reflexivity|]).
    constructor.
  - discriminate.
Defined.

Lemma flamegraph_export_is_the_snapshot_witness :
  let _ := PyModel.model_pylib in
  export_profile "flame.json" "flamegraph" None (Examples.world Examples.session)
  = (Ok (), set_file "flame.json"
              (json_dumps None (get_report None Examples.session))
              (Examples.world Examples.session)).
Proof.
  intros L.
  let items := eval vm_compute in (operations_of (get_report None Examples.session)) in
  refine (proj1 (flamegraph_export_is_the_snapshot "flame.json" None
                   (Examples.world Examples.session)
                   (get_report None Examples.session) items _ _ _) _).
  - vm_compute. reflexivity.
  - vm_compute. reflexivity.
  - set_solver.
  - repeat (apply Forall_cons; split; [do 2 eexists; split; reflexivity|]).
    constructor.
Defined.

Lemma export_unwritable_path_witness :
  let _ := PyModel.model_pylib in
  let w := {| rt := initial_profiler "s1"; files := ∅;
              unwritable := {["/proc/profile"]} |} in
  export_profile "/proc/profile" "json" None w
  = (Raise (OSError "/proc/profile"), w) ∧
  export_profile "/proc/profile" "csv" None w = (Ok (), w).
Proof.
  intros L w.
  destruct (export_unwritable_path "/proc/profile" None w
              (get_report None (initial_profiler "s1")) [])
    as (Hjson & _ & Hcsv).
  - vm_compute. reflexivity.
  - vm_compute. reflexivity.
  - set_solver.
  - split; [exact Hjson|exact (Hcsv eq_refl)].
Defined.

Lemma export_profile_other_witness :
  let _ := PyModel.model_pylib in
  export_profile "trace.json" "chrome_tracing" None
    (Examples.world Examples.session)
  = (Ok (), Examples.world Examples.session).
Proof.
  intros L.
  apply (export_profile_other "trace.json" "chrome_tracing" None
           (Examples.world Examples.session) (get_report None Examples.session)).
  - vm_compute. reflexivity.
  - discriminate.
  - discriminate.
  - discriminate.
Defined.

Lemma equal_totals_keep_order_witness :
  let row (name : string) (total : Q) :=
    VDict [("operation", VStr name); ("total_time_ms", VFloat total)] in
  let ops := [row "a" 1; row "b" 5; row "c" 1; row "d" 5]%Q in
  sort_by_total_desc ops = Ok [row "b" 5; row "d" 5; row "a" 1; row "c" 1]%Q ∧
  List.filter (λ op, Qeq_bool (sort_key op) 5) [row "b" 5; row "d" 5; row "a" 1; row "c" 1]%Q
  = List.filter (λ op, Qeq_bool (sort_key op) 5) ops.
Proof.
  intros row ops.
  assert (Hsort : sort_by_total_desc ops
                  = Ok [row "b" 5; row "d" 5; row "a" 1; row "c" 1]%Q)
    by (vm_compute; reflexivity).
  split; [exact Hsort|].
  apply (equal_totals_keep_order ops _ 5); [|exact Hsort].
  repeat (apply Forall_cons; split; [do 2 eexists; split; reflexivity|]).
  constructor.
Defined.

(* ===================================================================== *)
(** ** The shape of an element-wise result; when a recommendation is made *)
(* ===================================================================== *)


Section FlatResults.
Import Tensor TensorOps.
Context `{Backend}.


End FlatResults.


Section RecommendationSoundness.
Context `{PyLib} {S : Type} `{!CorepyRust S}.

(** X14: A recommendation is made only for a matmul record whose primary
    backend is the CPU and whose average time is above 10 ms: each
    element returned comes from such a record of the snapshot. *)
Theorem recommendations_only_for_slow_cpu_matmul (s : S) (report : value)
    (items : list (string * value)) (l : list value) :
  profile_report None "dict" s = Ok report →
  field "operations" report = Some (VDict items) →
  get_recommendations s = Ok l →
  Forall (λ r, ∃ op_data,
            ("matmul", op_data) ∈ items ∧
            field "primary_backend" op_data = Some (VStr "CPU") ∧
            (10 < num_field "avg_time_ms" op_data)%Q) l.
Proof.
  intros Hreport Hitems. unfold get_recommendations.
  rewrite Hreport, result_bind_Ok, (field_dict_get _ _ _ _ Hitems), !result_bind_Ok.
  intros Hrun. apply Forall_forall. intros r Hr.
  destruct (for_each_elem _ _ _ _ Hrun Hr) as ([op_name op_data] & ys & Hin & Hentry & Hry).
  unfold recommendation_entry in Hentry.
  destruct (String.eqb op_name "matmul") eqn:Hname;
    [|injection Hentry as <-; inversion Hry].
  apply String.eqb_eq in Hname as ->.
  apply bind_Ok in Hentry as (backend & Hbackend & Hentry).
  destruct backend as [| | | |b| |]; simpl in Hentry;
    try (injection Hentry as <-; inversion Hry).
  destruct (String.eqb b "CPU") eqn:Hcpu;
    [|injection Hentry as <-; inversion Hry].
  apply String.eqb_eq in Hcpu as ->.
  apply bind_Ok in Hentry as (avg & Havg & Hentry).
  apply bind_Ok in Hentry as (a & Ha & Hentry).
  destruct (Qgtb a 10) eqn:Hslow; [|injection Hentry as <-; inversion Hry].
  apply Qgtb_true in Hslow.
  exists op_data.
  destruct op_data as [| | | | | |d]; try discriminate. simpl in Hbackend, Havg.
  destruct (assoc "primary_backend" d) as [pb|] eqn:Hpb; [|discriminate].
  destruct (assoc "avg_time_ms" d) as [av|] eqn:Hav; [|discriminate].
  injection Hbackend as ->. injection Havg as ->.
  split_and!; [exact Hin|exact Hpb|].
  unfold num_field. simpl. rewrite Hav, Ha. exact Hslow.
Qed.

End RecommendationSoundness.

Lemma recommendations_only_for_slow_cpu_matmul_witness :
  let _ := PyModel.model_pylib in
  ∃ l, get_recommendations Examples.session = Ok l ∧
       Forall (λ r, ∃ op_data,
                 ("matmul", op_data) ∈ operations_of (get_report None Examples.session) ∧
                 (10 < num_field "avg_time_ms" op_data)%Q) l.
Proof.
  intros L.
  destruct (get_recommendations Examples.session) as [l|e] eqn:Hrun;
    [|vm_compute in Hrun; discriminate Hrun].
  exists l. split; [reflexivity|].
  eapply Forall_impl.
  - apply (recommendations_only_for_slow_cpu_matmul Examples.session
             (get_report None Examples.session)
             (operations_of (get_report None Examples.session)) l).
    + vm_compute. reflexivity.
    + reflexivity.
    + exact Hrun.
  - intros r (op_data & Hin & _ & Hslow). exists op_data. split; assumption.
Defined.
